(** * sagemaker_tensorflow_container.training

    A shallow embedding of [src/sagemaker_tensorflow_container/training.py]:
    the topology resolver [_build_tf_config], the launch helpers, the
    liveness poller [_wait_until_master_is_down] and the dispatcher [train],
    followed by the properties the specification states about them.

    Conventions.
    - Python [str] is [string], [list] is [list], [int] is [Z], a value that
      may be [None] is an [option].
    - The dict under the ["cluster"] key is a [gmap string (list string)];
      the outer dict, whose three keys are all set on every return path, is
      the record [tf_config].
    - A raised exception is the [Raise] result; the calls into
      [sagemaker_containers] and [subprocess] are recorded as [event]s.
    - [logger.info] calls change neither control flow nor any value and are
      left out of the event trace.
    - The resolver is embedded twice: as a function on values, which the
      properties of its result use, and as a computation on a store of
      mutable objects ([_build_tf_config_st]), which shows that the result
      depends on its arguments alone. *)

From stdpp Require Import gmap strings list relations.

Local Open Scope string_scope.
Local Open Scope Z_scope.

(** ** Python builtins used by the module *)

Module Py.

(** Exceptions that the code of the module can raise. *)
Inductive exn : Type :=
| ValueError (msg : string)      (* raise ValueError(msg) *)
| NotInList (x : string)         (* ValueError of list.index(x) *)
| IndexOutOfRange                (* IndexError of l[0] on an empty list *)
| NoneOrdering.                  (* TypeError of None > 0 *)

Inductive exn_class : Type := ValueErrorC | IndexErrorC | TypeErrorC.

Definition class_of (e : exn) : exn_class :=
  match e with
  | ValueError _ | NotInList _ => ValueErrorC
  | IndexOutOfRange => IndexErrorC
  | NoneOrdering => TypeErrorC
  end.

Inductive result (A : Type) : Type :=
| Ok (a : A)
| Raise (e : exn).
Arguments Ok {A} a.
Arguments Raise {A} e.

Definition bind {A B} (r : result A) (k : A -> result B) : result B :=
  match r with
  | Ok a => k a
  | Raise e => Raise e
  end.

(** [l[:stop]]: a [None] stop keeps the list, a negative stop counts from
    the end, and both ends are clamped to the list. *)
Definition slice_to {A} (l : list A) (stop : option Z) : list A :=
  match stop with
  | None => l
  | Some n =>
      if 0 <=? n then take (Z.to_nat n) l
      else take (Z.to_nat (Z.of_nat (length l) + n)) l
  end.

(** [l[1:]]. *)
Definition slice_from_1 {A} (l : list A) : list A := drop 1 l.

(** [l[0]]. *)
Definition getitem_0 {A} (l : list A) : result A :=
  match l with
  | [] => Raise IndexOutOfRange
  | x :: _ => Ok x
  end.

(** [l.index(x)]: position of the first element equal to [x]. *)
Fixpoint index (l : list string) (x : string) : result Z :=
  match l with
  | [] => Raise (NotInList x)
  | y :: l' =>
      if String.eqb y x then Ok 0
      else bind (index l' x) (fun i => Ok (1 + i))
  end.

(** [x in l]. *)
Definition contains (x : string) (l : list string) : bool :=
  existsb (fun y => String.eqb y x) l.

(** Truth value of a list and of an optional int. *)
Definition truthy_list {A} (l : list A) : bool :=
  match l with [] => false | _ :: _ => true end.

Definition truthy_opt_int (n : option Z) : bool :=
  match n with None => false | Some n => negb (n =? 0) end.

(** [n > 0]; ordering [None] against an int is a [TypeError]
    (Python 3; Python 2 would answer [False]). *)
Definition gt_0 (n : option Z) : result bool :=
  match n with
  | None => Raise NoneOrdering
  | Some n => Ok (0 <? n)
  end.

End Py.
Import Py.

Notation "x <- r ;; k" := (Py.bind r (fun x => k))
  (at level 100, r at next level, right associativity, only parsing).

(** ** The cluster descriptor *)

Record task_config : Type := {
  task_index : Z;          (* "index" *)
  task_type : string       (* "type" *)
}.

Record tf_config : Type := {
  cluster : gmap string (list string);   (* "cluster" *)
  environment : string;                  (* "environment" *)
  task : task_config                     (* "task" *)
}.

Definition SAGEMAKER_PARAMETER_SERVER_NUM : string :=
  "sagemaker_parameter_server_num".

Definition _is_host_master (hosts : list string) (current_host : string)
  : result bool :=
  h0 <- getitem_0 hosts ;;
  Ok (String.eqb current_host h0).

(** The inner function of [_build_tf_config]; the default [port=2222] and
    the explicit [port='2223'] both render as their decimal digits. *)
Definition host_addresses (hosts : list string) (port : string) : list string :=
  map (fun host => host +:+ ":" +:+ port) hosts.

Definition default_port : string := "2222".

Definition _build_tf_config (hosts : list string) (current_host : string)
    (ps_num : option Z) (ps_task : bool) : result tf_config :=
  let masters := slice_to hosts (Some 1) in
  let workers := slice_from_1 hosts in
  ps <- (if (1 <? Z.of_nat (length hosts))
         then (positive <- gt_0 ps_num ;;
               Ok (if positive then Some (slice_to hosts ps_num) else None))
         else Ok None) ;;
  let cluster0 : gmap string (list string) :=
    {[ "master" := host_addresses masters default_port ]} in
  let cluster1 :=                        (* if ps: neither None nor empty *)
    match ps with
    | Some l => if truthy_list l
                then <[ "ps" := host_addresses l "2223" ]> cluster0
                else cluster0
    | None => cluster0
    end in
  let cluster2 :=
    if truthy_list workers
    then <[ "worker" := host_addresses workers default_port ]> cluster1
    else cluster1 in
  tk <- (if ps_task then
           match ps with
           | None =>
               Raise (ValueError
                 "Can not have a ps task if there are no parameter servers in the cluster")
           | Some l =>
               i <- index l current_host ;;
               Ok {| task_index := i; task_type := "ps" |}
           end
         else
           is_master <- _is_host_master hosts current_host ;;
           if is_master then Ok {| task_index := 0; task_type := "master" |}
           else
             i <- index workers current_host ;;
             Ok {| task_index := i; task_type := "worker" |}) ;;
  Ok {| cluster := cluster2; environment := "cloud"; task := tk |}.

(** The three stages of the body of [_build_tf_config], named so that
    lemmas can speak of each: the value bound to [ps], the dict stored under
    ["cluster"], and the dict stored under ["task"]. *)
Definition ps_group (hosts : list string) (ps_num : option Z)
  : result (option (list string)) :=
  if (1 <? Z.of_nat (length hosts))
  then (positive <- gt_0 ps_num ;;
        Ok (if positive then Some (slice_to hosts ps_num) else None))
  else Ok None.

Definition cluster_dict (hosts : list string) (ps : option (list string))
  : gmap string (list string) :=
  let cluster0 : gmap string (list string) :=
    {[ "master" := host_addresses (slice_to hosts (Some 1)) default_port ]} in
  let cluster1 :=
    match ps with
    | Some l => if truthy_list l
                then <[ "ps" := host_addresses l "2223" ]> cluster0
                else cluster0
    | None => cluster0
    end in
  if truthy_list (slice_from_1 hosts)
  then <[ "worker" := host_addresses (slice_from_1 hosts) default_port ]> cluster1
  else cluster1.

Definition task_dict (hosts : list string) (current_host : string)
    (ps : option (list string)) (ps_task : bool) : result task_config :=
  if ps_task then
    match ps with
    | None =>
        Raise (ValueError
          "Can not have a ps task if there are no parameter servers in the cluster")
    | Some l =>
        i <- index l current_host ;;
        Ok {| task_index := i; task_type := "ps" |}
    end
  else
    is_master <- _is_host_master hosts current_host ;;
    if is_master then Ok {| task_index := 0; task_type := "master" |}
    else
      i <- index (slice_from_1 hosts) current_host ;;
      Ok {| task_index := i; task_type := "worker" |}.

(** The port a role listens on, as the two [host_addresses] calls fix it. *)
Definition role_port (role : string) : string :=
  if String.eqb role "ps" then "2223" else default_port.

(** ** Effects: launches, probes and the event trace *)

(** The calls that leave the module.  [run_module] is called without
    [wait] except in [_run_ps]; the framework's default, a blocking launch,
    is recorded as [wait = true]. *)
Inductive event : Type :=
| run_module (uri : string) (args : list string)
             (env_vars : gmap string string) (name : string) (wait : bool)
| write_env_vars (env_vars : gmap string string)
| run (name : string) (args : list string) (env_vars : gmap string string)
| check_call (cmd : list string)
| sleep (secs : Z).

(** What has happened so far on this host: the calls made, in order, and
    the number of probes already sent. *)
Record world : Type := {
  trace : list event;
  probes_made : nat
}.

Definition initial_world : world := {| trace := []; probes_made := 0 |}.

Definition record_event (e : event) (w : world) : world :=
  {| trace := trace w ++ [e]; probes_made := probes_made w |}.

Definition record_probe (cmd : list string) (w : world) : world :=
  {| trace := trace w ++ [check_call cmd]; probes_made := S (probes_made w) |}.

(** A computation either returns, raises, or is still inside the polling
    loop when the fuel given to it runs out. *)
Inductive outcome (A : Type) : Type :=
| Returned (a : A) (w : world)
| Raised (e : exn) (w : world)
| Running (w : world).
Arguments Returned {A} a w.
Arguments Raised {A} e w.
Arguments Running {A} w.

Definition M (A : Type) : Type := world -> outcome A.

Definition mret {A} (a : A) : M A := fun w => Returned a w.

Definition mbind {A B} (m : M A) (k : A -> M B) : M B :=
  fun w =>
    match m w with
    | Returned a w' => k a w'
    | Raised e w' => Raised e w'
    | Running w' => Running w'
    end.

Definition lift {A} (r : result A) : M A :=
  fun w => match r with Ok a => Returned a w | Raise e => Raised e w end.

(** A call into the framework or into [subprocess] is recorded and taken to
    return.  The module has no [try] around its launches, so an exception
    raised by one of them would leave [train] at that call; such launch
    errors are outside this model, which follows the calls the module makes
    and the errors of its own code. *)
Definition emit (e : event) : M unit := fun w => Returned tt (record_event e w).

Declare Scope launch_scope.
Delimit Scope launch_scope with launch.
Notation "x <~ m ;; k" := (mbind m (fun x => k))
  (at level 100, m at next level, right associativity, only parsing)
  : launch_scope.
Notation "m ;;; k" := (mbind m (fun _ => k))
  (at level 100, right associativity, only parsing) : launch_scope.

(** The part of [TrainingEnv] that the module reads.  The hyperparameter
    mapping is taken with int values; [to_env_vars()] builds a new dict on
    every call, so it is a value here. *)
Record TrainingEnv : Type := {
  hosts : list string;
  current_host : string;
  additional_framework_parameters : gmap string Z;
  module_dir : string;
  module_name : string;
  to_cmd_args : list string;
  to_env_vars : gmap string string
}.

Definition curl_command (master : string) : list string :=
  ["curl"; master +:+ ":" +:+ "2222"].

Definition _should_run_ps_on_this_host (hosts : list string)
    (current_host : string) (parameter_server_num : option Z) : bool :=
  contains current_host (slice_to hosts parameter_server_num).

(** What [n] successful probe cycles add to the trace (a probe, then the
    10 second sleep), and the world after them. *)
Definition success_cycles (master : string) (n : nat) : list event :=
  mjoin (replicate n [check_call (curl_command master); sleep 10]).

Definition after_cycles (master : string) (n : nat) (w : world) : world :=
  {| trace := trace w ++ success_cycles master n;
     probes_made := probes_made w + n |}.

Section Training.

(** [json.dumps] on a descriptor. *)
Variable json_dumps : tf_config -> string.

(** Exit status of the curl process of each probe, in the order the
    probes are sent: [check_call] returns on status 0 and raises
    [CalledProcessError] on any other. *)
Variable probes : nat -> Z.

Definition _env_vars_with_tf_config (env : TrainingEnv) (ps_task : bool)
  : result (gmap string string) :=
  let env_vars := to_env_vars env in
  cfg <- _build_tf_config (hosts env) (current_host env)
           (additional_framework_parameters env !! SAGEMAKER_PARAMETER_SERVER_NUM)
           ps_task ;;
  Ok (<[ "TF_CONFIG" := json_dumps cfg ]> env_vars).

Definition _run_ps (env : TrainingEnv) : M unit :=
  (env_vars <~ lift (_env_vars_with_tf_config env true) ;;
   emit (run_module (module_dir env) (to_cmd_args env) env_vars
           (module_name env) false))%launch.

Definition _run_worker (env : TrainingEnv) (install_module : bool) : M unit :=
  (env_vars <~ lift (_env_vars_with_tf_config env false) ;;
   if install_module then
     emit (run_module (module_dir env) (to_cmd_args env) env_vars
             (module_name env) true)
   else
     emit (write_env_vars env_vars) ;;;
     emit (run (module_name env) (to_cmd_args env) env_vars))%launch.

(** One turn of the [while True] loop per unit of fuel. *)
Fixpoint _wait_until_master_is_down (fuel : nat) (master : string) : M unit :=
  fun w =>
    match fuel with
    | O => Running w
    | S fuel' =>
        let w1 := record_probe (curl_command master) w in
        if probes (probes_made w) =? 0
        then _wait_until_master_is_down fuel' master (record_event (sleep 10) w1)
        else Returned tt w1
    end.

Definition train (fuel : nat) (env : TrainingEnv) : M unit :=
  let parameter_server_num :=
    additional_framework_parameters env !! SAGEMAKER_PARAMETER_SERVER_NUM in
  (if (1 <? Z.of_nat (length (hosts env)))
      && truthy_opt_int parameter_server_num
   then
     if _should_run_ps_on_this_host (hosts env) (current_host env)
          parameter_server_num
     then
       _run_ps env ;;;
       _run_worker env false ;;;
       master <~ lift (getitem_0 (hosts env)) ;;
       _wait_until_master_is_down fuel master
     else
       _run_worker env true
   else
     emit (run_module (module_dir env) (to_cmd_args env) (to_env_vars env)
             (module_name env) true))%launch.

(** The polling loop as a transition system: one transition per turn of
    the loop, from the loop head either back to it or out of the
    function. *)
Inductive control : Type := AtLoopHead | Exited.

Inductive poller_step (master : string)
  : control * world -> control * world -> Prop :=
| probe_succeeded w :
    probes (probes_made w) = 0 ->
    poller_step master
      (AtLoopHead, w)
      (AtLoopHead, record_event (sleep 10) (record_probe (curl_command master) w))
| probe_failed w :
    probes (probes_made w) <> 0 ->
    poller_step master
      (AtLoopHead, w)
      (Exited, record_probe (curl_command master) w).

End Training.

(** The single-process branch as the specification words it: the topology
    is resolved for a non-parameter-server process and the one blocking
    launch receives the environment that carries the descriptor.  It is
    compared with [train] below. *)
Definition sole_launch_carries_descriptor (json_dumps : tf_config -> string)
    (probes : nat -> Z) (fuel : nat) (env : TrainingEnv) : Prop :=
  exists env_vars,
    _env_vars_with_tf_config json_dumps env false = Ok env_vars
    /\ train json_dumps probes fuel env initial_world
       = Returned tt
           (record_event
              (run_module (module_dir env) (to_cmd_args env) env_vars
                 (module_name env) true)
              initial_world).

(** A job on the hosts a, b, c with two parameter servers, seen from one of
    its hosts; used in the closed examples. *)
Definition three_host_env (current : string) : TrainingEnv :=
  {| hosts := ["a"; "b"; "c"];
     current_host := current;
     additional_framework_parameters := {[ SAGEMAKER_PARAMETER_SERVER_NUM := 2 ]};
     module_dir := "s3://bucket/code";
     module_name := "train";
     to_cmd_args := ["--epochs"; "1"];
     to_env_vars := ∅ |}.

(** ** Observations on outcomes and events *)

(** The world in which a computation stopped, however it stopped. *)
Definition outcome_world {A} (o : outcome A) : world :=
  match o with
  | Returned _ w | Raised _ w | Running w => w
  end.

(** The environment that a call into the framework's module runner is
    given; the probe and the sleep carry none. *)
Definition launch_env_vars (e : event) : option (gmap string string) :=
  match e with
  | run_module _ _ env_vars _ _ => Some env_vars
  | write_env_vars env_vars => Some env_vars
  | run _ _ env_vars => Some env_vars
  | check_call _ | sleep _ => None
  end.

Definition is_run_module (e : event) : bool :=
  match e with run_module _ _ _ _ _ => true | _ => false end.

Definition is_check_call (e : event) : bool :=
  match e with check_call _ => true | _ => false end.

(** The condition under which [train] takes its distributed branch and, in
    it, the parameter-server path. *)
Definition runs_parameter_server (env : TrainingEnv) : bool :=
  let parameter_server_num :=
    additional_framework_parameters env !! SAGEMAKER_PARAMETER_SERVER_NUM in
  (1 <? Z.of_nat (length (hosts env)))
  && truthy_opt_int parameter_server_num
  && _should_run_ps_on_this_host (hosts env) (current_host env)
       parameter_server_num.

(** How many events of a trace satisfy a test. *)
Definition count_events (test : event -> bool) (t : list event) : nat :=
  length (List.filter test t).

(** The events that belong to the job of [env]: a launch names the job's
    module and arguments and carries an environment that agrees with
    [to_env_vars()] on every key but ["TF_CONFIG"]; a probe is the curl
    command against the first host; a sleep lasts 10 seconds. *)
Definition env_vars_of_job (env : TrainingEnv) (env_vars : gmap string string)
  : Prop :=
  forall key, key <> "TF_CONFIG" -> env_vars !! key = to_env_vars env !! key.

Definition event_of_job (env : TrainingEnv) (e : event) : Prop :=
  match e with
  | run_module uri args env_vars name _ =>
      uri = module_dir env /\ args = to_cmd_args env
      /\ name = module_name env /\ env_vars_of_job env env_vars
  | write_env_vars env_vars => env_vars_of_job env env_vars
  | run name args env_vars =>
      name = module_name env /\ args = to_cmd_args env
      /\ env_vars_of_job env env_vars
  | check_call cmd =>
      exists master, head (hosts env) = Some master /\ cmd = curl_command master
  | sleep secs => secs = 10
  end.

(** ** The resolver over a store of mutable objects

    The resolver once more, this time with the objects of the Python
    program in a store: [hosts] is passed by reference, every slice, list
    comprehension and dict display allocates a new object, and the
    subscript assignments update the dict they name in place.  It is used to
    show that the result depends on nothing of the store but the host
    list, and that nothing that was in the store is changed. *)

Module Store.

(** What a dict of the resolver holds: an int, a str, or a reference to
    another object. *)
Inductive value : Type :=
| VInt (n : Z)
| VStr (s : string)
| VRef (l : nat).

(** The objects of the resolver: lists of str and dicts with str keys. *)
Inductive object : Type :=
| OList (items : list string)
| ODict (entries : gmap string value).

(** The store: object [l] is the one at position [l]; a new object is put
    after all the others. *)
Abbreviation store := (list object).

(** A computation on the store returns or raises, with the store it leaves;
    [None] is an access that the types of the program rule out (a subscript
    on something that is not a dict, a key that was never set). *)
Definition ST (A : Type) : Type := store -> option (result A * store).

Definition ret {A} (a : A) : ST A := fun h => Some (Ok a, h).

Definition raise {A} (e : exn) : ST A := fun h => Some (Raise e, h).

Definition bind {A B} (m : ST A) (k : A -> ST B) : ST B :=
  fun h =>
    match m h with
    | Some (Ok a, h') => k a h'
    | Some (Raise e, h') => Some (Raise e, h')
    | None => None
    end.

Definition of_result {A} (r : result A) : ST A :=
  match r with Ok a => ret a | Raise e => raise e end.

(** A list or dict display, a slice, a list comprehension: a new object. *)
Definition new (o : object) : ST nat :=
  fun h => Some (Ok (length h), (h ++ [o])%list).

(** Reading the items of the list at [l]. *)
Definition get_list (l : nat) : ST (list string) :=
  fun h =>
    match h !! l with
    | Some (OList items) => Some (Ok items, h)
    | _ => None
    end.

(** [d[key]] where the entry is a reference. *)
Definition get_ref (l : nat) (key : string) : ST nat :=
  fun h =>
    match h !! l with
    | Some (ODict entries) =>
        match entries !! key with
        | Some (VRef r) => Some (Ok r, h)
        | _ => None
        end
    | _ => None
    end.

(** [d[key] = v], in place. *)
Definition set_item (l : nat) (key : string) (v : value) : ST unit :=
  fun h =>
    match h !! l with
    | Some (ODict entries) =>
        Some (Ok tt, <[ l := ODict (<[ key := v ]> entries) ]> h)
    | _ => None
    end.

End Store.
Import Store.

Declare Scope store_scope.
Delimit Scope store_scope with store.
Notation "x <~ m ;; k" := (Store.bind m (fun x => k))
  (at level 100, m at next level, right associativity, only parsing)
  : store_scope.
Notation "m ;;; k" := (Store.bind m (fun _ => k))
  (at level 100, right associativity, only parsing) : store_scope.

Definition _is_host_master_st (hosts : nat) (current_host : string) : ST bool :=
  (items <~ get_list hosts ;;
   h0 <~ of_result (getitem_0 items) ;;
   ret (String.eqb current_host h0))%store.

Definition host_addresses_st (hosts : nat) (port : string) : ST nat :=
  (items <~ get_list hosts ;;
   new (OList (map (fun host => host +:+ ":" +:+ port) items)))%store.

Definition _build_tf_config_st (hosts : nat) (current_host : string)
    (ps_num : option Z) (ps_task : bool) : ST nat :=
  (items <~ get_list hosts ;;
   masters <~ new (OList (slice_to items (Some 1))) ;;
   items <~ get_list hosts ;;
   workers <~ new (OList (slice_from_1 items)) ;;
   items <~ get_list hosts ;;
   ps <~ (if (1 <? Z.of_nat (length items))
          then (positive <~ of_result (gt_0 ps_num) ;;
                if positive
                then (items <~ get_list hosts ;;
                      l <~ new (OList (slice_to items ps_num)) ;;
                      ret (Some l))
                else ret None)
          else ret None) ;;
   master_addresses <~ host_addresses_st masters default_port ;;
   cluster <~ new (ODict {[ "master" := VRef master_addresses ]}) ;;
   tf_config <~ new (ODict {[ "cluster" := VRef cluster;
                              "environment" := VStr "cloud" ]}) ;;
   match ps with
   | Some l =>
       items <~ get_list l ;;
       if truthy_list items
       then (addresses <~ host_addresses_st l "2223" ;;
             c <~ get_ref tf_config "cluster" ;;
             set_item c "ps" (VRef addresses))
       else ret tt
   | None => ret tt
   end ;;;
   items <~ get_list workers ;;
   (if truthy_list items
    then (addresses <~ host_addresses_st workers default_port ;;
          c <~ get_ref tf_config "cluster" ;;
          set_item c "worker" (VRef addresses))
    else ret tt) ;;;
   tk <~ (if ps_task then
            match ps with
            | None =>
                raise (ValueError
                  "Can not have a ps task if there are no parameter servers in the cluster")
            | Some l =>
                items <~ get_list l ;;
                i <~ of_result (index items current_host) ;;
                ret (i, "ps")
            end
          else
            is_master <~ _is_host_master_st hosts current_host ;;
            if is_master then ret (0, "master")
            else
              items <~ get_list workers ;;
              i <~ of_result (index items current_host) ;;
              ret (i, "worker")) ;;
   task <~ new (ODict {[ "index" := VInt tk.1; "type" := VStr tk.2 ]}) ;;
   set_item tf_config "task" (VRef task) ;;;
   ret tf_config)%store.

(** The store holds, at [l], the descriptor [cfg]: the dict at [l] has the
    three keys, its cluster dict has exactly the keys of [cluster cfg], each
    referring to a list with the same endpoints, and its task dict has the
    index and the type. *)
Definition represents (h : store) (l : nat) (cfg : tf_config) : Prop :=
  exists lc lt entries,
    h !! l = Some (ODict {[ "task" := VRef lt;
                            "cluster" := VRef lc;
                            "environment" := VStr (environment cfg) ]})
    /\ h !! lc = Some (ODict entries)
    /\ (forall key,
          match cluster cfg !! key with
          | Some endpoints =>
              exists le, entries !! key = Some (VRef le)
                         /\ h !! le = Some (OList endpoints)
          | None => entries !! key = None
          end)
    /\ h !! lt = Some (ODict {[ "index" := VInt (task_index (task cfg));
                                "type" := VStr (task_type (task cfg)) ]}).


(** Two runs of the resolver stopped the same way: with the same exception,
    or at places that hold, each in its store, the same descriptor, the one
    that [value] is. *)
Definition same_outcome (value : result tf_config)
    (h1 : store) (r1 : result nat) (h2 : store) (r2 : result nat) : Prop :=
  match r1, r2 with
  | Ok l1, Ok l2 =>
      exists cfg, value = Ok cfg /\ represents h1 l1 cfg /\ represents h2 l2 cfg
  | Raise e1, Raise e2 => e1 = e2 /\ value = Raise e1
  | _, _ => False
  end.

(** * Properties *)

(** ** The builtins *)

Lemma index_Ok (l : list string) (x : string) (i : Z) :
  index l x = Ok i ->
  0 <= i < Z.of_nat (length l)
  /\ l !! Z.to_nat i = Some x
  /\ x ∉ take (Z.to_nat i) l.
Proof.
  revert i. induction l as [|y l IH]; intros i; simpl; [discriminate|].
  destruct (String.eqb_spec y x) as [->|Hne].
  - intros [= <-]. simpl. split; [lia|]. split; [done|]. apply not_elem_of_nil.
  - destruct (index l x) as [j|e] eqn:Hj; simpl; [|discriminate].
    intros [= <-]. destruct (IH j eq_refl) as (Hr & Hl & Hn).
    replace (Z.to_nat (1 + j)) with (S (Z.to_nat j)) by lia.
    split; [lia|]. split; [done|]. simpl.
    intros [->|Hin]%elem_of_cons; [congruence|contradiction].
Qed.

Lemma index_Raise (l : list string) (x : string) (e : exn) :
  index l x = Raise e -> e = NotInList x /\ x ∉ l.
Proof.
  induction l as [|y l IH]; simpl.
  - intros [= <-]. split; [done|]. apply not_elem_of_nil.
  - destruct (String.eqb_spec y x) as [->|Hne]; [discriminate|].
    destruct (index l x) as [j|e'] eqn:Hj; simpl; [discriminate|].
    intros [= <-]. destruct (IH eq_refl) as [-> Hn]. split; [done|].
    intros [->|Hin]%elem_of_cons; [congruence|contradiction].
Qed.

Lemma index_first (l : list string) (x : string) (i : nat) :
  l !! i = Some x -> x ∉ take i l -> index l x = Ok (Z.of_nat i).
Proof.
  revert i. induction l as [|y l IH]; intros i; [done|].
  destruct i as [|i]; simpl.
  - intros [= ->] _. by rewrite String.eqb_refl.
  - intros Hl Hn. destruct (String.eqb_spec y x) as [->|Hne].
    + exfalso. apply Hn. left.
    + rewrite (IH i Hl); [|intros Hin; apply Hn; by right].
      simpl. f_equal. lia.
Qed.

Lemma index_absent (l : list string) (x : string) :
  x ∉ l -> index l x = Raise (NotInList x).
Proof.
  intros Hn. destruct (index l x) as [i|e] eqn:Hi.
  - apply index_Ok in Hi as (_ & Hl & _).
    exfalso. apply Hn. by eapply list_elem_of_lookup_2.
  - by apply index_Raise in Hi as [-> _].
Qed.

Lemma index_present (l : list string) (x : string) :
  x ∈ l -> exists i, index l x = Ok i.
Proof.
  intros Hin. destruct (index l x) as [i|e] eqn:Hi; [by exists i|].
  by apply index_Raise in Hi as [_ Hn].
Qed.

Lemma contains_elem_of (x : string) (l : list string) :
  contains x l = true <-> x ∈ l.
Proof.
  unfold contains. rewrite existsb_exists. split.
  - intros (y & Hin & ->%String.eqb_eq). by apply list_elem_of_In.
  - intros Hin. exists x. split; [by apply list_elem_of_In|apply String.eqb_refl].
Qed.

(** ** The stages of [_build_tf_config] *)

Lemma _build_tf_config_stages hosts current_host ps_num ps_task :
  _build_tf_config hosts current_host ps_num ps_task =
  (ps <- ps_group hosts ps_num ;;
   tk <- task_dict hosts current_host ps ps_task ;;
   Ok {| cluster := cluster_dict hosts ps; environment := "cloud"; task := tk |}).
Proof. reflexivity. Qed.

Lemma _build_tf_config_Ok hosts current_host ps_num ps_task cfg :
  _build_tf_config hosts current_host ps_num ps_task = Ok cfg ->
  exists ps,
    ps_group hosts ps_num = Ok ps
    /\ task_dict hosts current_host ps ps_task = Ok (task cfg)
    /\ cluster cfg = cluster_dict hosts ps
    /\ environment cfg = "cloud".
Proof.
  rewrite _build_tf_config_stages.
  destruct (ps_group hosts ps_num) as [ps|e]; simpl; [|discriminate].
  destruct (task_dict hosts current_host ps ps_task) as [tk|e] eqn:Htk; simpl;
    [|discriminate].
  intros [= <-]. by exists ps.
Qed.

Lemma ps_group_int hosts (n : Z) :
  ps_group hosts (Some n) =
  Ok (if (1 <? Z.of_nat (length hosts)) && (0 <? n)
      then Some (take (Z.to_nat n) hosts) else None).
Proof.
  unfold ps_group. destruct (1 <? Z.of_nat (length hosts)); simpl; [|done].
  destruct (0 <? n) eqn:Hn; [|done].
  apply Z.ltb_lt in Hn. by rewrite (proj2 (Z.leb_le 0 n)) by lia.
Qed.

Lemma ps_group_truthy hosts ps_num l :
  ps_group hosts ps_num = Ok (Some l) -> truthy_list l = true.
Proof.
  destruct ps_num as [n|].
  - rewrite ps_group_int.
    destruct (1 <? Z.of_nat (length hosts)) eqn:Hlen; simpl; [|discriminate].
    destruct (0 <? n) eqn:Hn; [|discriminate].
    intros [= <-]. apply Z.ltb_lt in Hlen, Hn.
    destruct hosts as [|h hosts]; simpl in *; [lia|].
    by replace (Z.to_nat n) with (S (Z.to_nat n - 1)) by lia.
  - unfold ps_group.
    by destruct (1 <? Z.of_nat (length hosts)).
Qed.

Lemma cluster_dict_master hosts ps :
  cluster_dict hosts ps !! "master" =
  Some (host_addresses (take 1 hosts) default_port).
Proof.
  unfold cluster_dict.
  destruct (truthy_list (slice_from_1 hosts)), ps as [[|x l]|]; simpl;
    by simplify_map_eq.
Qed.

Lemma cluster_dict_ps hosts ps :
  cluster_dict hosts ps !! "ps" =
  match ps with
  | Some l => if truthy_list l then Some (host_addresses l "2223") else None
  | None => None
  end.
Proof.
  unfold cluster_dict.
  destruct (truthy_list (slice_from_1 hosts)), ps as [[|x l]|]; simpl;
    by simplify_map_eq.
Qed.

Lemma cluster_dict_worker hosts ps :
  cluster_dict hosts ps !! "worker" =
  if truthy_list (drop 1 hosts)
  then Some (host_addresses (drop 1 hosts) default_port) else None.
Proof.
  unfold cluster_dict, slice_from_1.
  destruct (truthy_list (drop 1 hosts)), ps as [[|x l]|]; simpl;
    by simplify_map_eq.
Qed.

(** ** Topology resolution *)

(** C1.  Whenever resolution returns a descriptor, its cluster has a ["ps"]
    entry exactly when there is more than one host and the parameter-server
    count is positive; the entry lists the first min(psCount, len(hosts))
    hosts, each rendered as host:2223; and for a one-host list the cluster is
    the single ["master"] entry, with no ["ps"] and no ["worker"] entry,
    whatever the count. *)
Theorem ps_entry_iff_distributed hosts current_host (ps_num : Z) ps_task cfg :
  _build_tf_config hosts current_host (Some ps_num) ps_task = Ok cfg ->
  (is_Some (cluster cfg !! "ps") <-> (1 < length hosts)%nat /\ 0 < ps_num)
  /\ (forall l, cluster cfg !! "ps" = Some l ->
        l = map (fun h => h +:+ ":2223")
              (take (Z.to_nat (Z.min ps_num (Z.of_nat (length hosts)))) hosts))
  /\ (length hosts = 1%nat ->
        cluster cfg = {[ "master" := map (fun h => h +:+ ":2222") hosts ]}
        /\ cluster cfg !! "ps" = None
        /\ cluster cfg !! "worker" = None).
Proof.
  intros Hcfg. apply _build_tf_config_Ok in Hcfg as (ps & Hps & _ & Hc & _).
  rewrite Hc, cluster_dict_ps.
  pose proof (ps_group_truthy hosts (Some ps_num)) as Htr.
  rewrite ps_group_int in Hps, Htr. injection Hps as <-.
  destruct (1 <? Z.of_nat (length hosts)) eqn:Hlen; simpl in *.
  - apply Z.ltb_lt in Hlen. destruct (0 <? ps_num) eqn:Hn.
    + apply Z.ltb_lt in Hn. rewrite (Htr _ eq_refl).
      split; [split; [lia|by eexists]|]. split; [|lia].
      intros l [= <-]. unfold host_addresses. f_equal.
      destruct (Z.le_gt_cases ps_num (Z.of_nat (length hosts))).
      * by rewrite Z.min_l by lia.
      * rewrite Z.min_r, Nat2Z.id by lia.
        by rewrite !take_ge by lia.
    + apply Z.ltb_ge in Hn.
      split; [split; [intros [? ?]; discriminate|lia]|]. split; [done|lia].
  - apply Z.ltb_ge in Hlen.
    split; [split; [intros [? ?]; discriminate|lia]|]. split; [done|].
    intros Hone. destruct hosts as [|h [|]]; try discriminate.
    by rewrite cluster_dict_worker.
Qed.

Lemma ps_entry_iff_distributed_witness :
  exists cfg,
    _build_tf_config ["a"; "b"] "a" (Some 1) false = Ok cfg
    /\ cluster cfg !! "ps" = Some ["a:2223"].
Proof.
  destruct (_build_tf_config ["a"; "b"] "a" (Some 1) false) as [cfg|e] eqn:Hcfg;
    [|vm_compute in Hcfg; discriminate].
  exists cfg. split; [reflexivity|].
  destruct (ps_entry_iff_distributed ["a"; "b"] "a" 1 false cfg Hcfg)
    as ([_ Hsome] & Hlist & _).
  destruct Hsome as [l Hl]; [simpl; lia|].
  rewrite Hl. f_equal. apply (Hlist l Hl).
Defined.

(** C2.  For hosts a, b, c with two parameter servers, the parameter-server
    process on a is task ps/0, the one on b is task ps/1, and in both
    descriptors the cluster is exactly ps = a:2223, b:2223,
    master = a:2222, worker = b:2222, c:2222. *)
Example three_hosts_two_parameter_servers :
  let expected_cluster : gmap string (list string) :=
    {[ "ps" := ["a:2223"; "b:2223"];
       "master" := ["a:2222"];
       "worker" := ["b:2222"; "c:2222"] ]} in
  _build_tf_config ["a"; "b"; "c"] "a" (Some 2) true =
    Ok {| cluster := expected_cluster; environment := "cloud";
          task := {| task_index := 0; task_type := "ps" |} |}
  /\ _build_tf_config ["a"; "b"; "c"] "b" (Some 2) true =
    Ok {| cluster := expected_cluster; environment := "cloud";
          task := {| task_index := 1; task_type := "ps" |} |}
  /\ dom expected_cluster = ({[ "ps"; "master"; "worker" ]} : gset string).
Proof. vm_compute. done. Qed.

(** C3.  Asking for the parameter-server task when the count is 0 or when
    there is exactly one host raises the ValueError of the explicit check:
    no descriptor, hence no master or worker role, is returned. *)
Theorem ps_task_without_ps_group_raises hosts current_host ps_num :
  ps_num = Some 0 \/ length hosts = 1%nat ->
  _build_tf_config hosts current_host ps_num true =
    Raise (ValueError
      "Can not have a ps task if there are no parameter servers in the cluster")
  /\ class_of (ValueError
      "Can not have a ps task if there are no parameter servers in the cluster")
     = ValueErrorC
  /\ (forall cfg,
        _build_tf_config hosts current_host ps_num true <> Ok cfg).
Proof.
  intros Hno. rewrite _build_tf_config_stages.
  assert (ps_group hosts ps_num = Ok None) as ->.
  { destruct Hno as [->|Hone].
    - rewrite ps_group_int. by rewrite andb_false_r.
    - unfold ps_group. by rewrite Hone. }
  simpl. done.
Qed.

Lemma ps_task_without_ps_group_raises_witness :
  _build_tf_config ["a"; "b"; "c"] "a" (Some 0) true =
    Raise (ValueError
      "Can not have a ps task if there are no parameter servers in the cluster")
  /\ _build_tf_config ["a"] "a" (Some 3) true =
    Raise (ValueError
      "Can not have a ps task if there are no parameter servers in the cluster").
Proof.
  split.
  - apply (ps_task_without_ps_group_raises ["a"; "b"; "c"] "a" (Some 0)).
    left. reflexivity.
  - apply (ps_task_without_ps_group_raises ["a"] "a" (Some 3)).
    right. reflexivity.
Defined.

(** C4.  With [ps_task] false and a non-empty host list: the first host is
    the master with index 0; any other host is a worker whose index is the
    position of its first occurrence in [hosts[1:]]; a host that is neither
    the first nor among the rest makes the call raise the not-in-list
    ValueError of [list.index], so no index is made up.  The last part is
    the example of the specification: c is worker 1 of a, b, c, and without
    parameter servers the cluster has no ["ps"] entry. *)
Theorem non_ps_role_precedence h0 rest current_host (ps_num : Z) :
  (current_host = h0 ->
     exists cfg,
       _build_tf_config (h0 :: rest) current_host (Some ps_num) false = Ok cfg
       /\ task cfg = {| task_index := 0; task_type := "master" |})
  /\ (current_host <> h0 ->
      forall i : nat,
        rest !! i = Some current_host ->
        current_host ∉ take i rest ->
        exists cfg,
          _build_tf_config (h0 :: rest) current_host (Some ps_num) false = Ok cfg
          /\ task cfg = {| task_index := Z.of_nat i; task_type := "worker" |})
  /\ (current_host <> h0 ->
      current_host ∉ rest ->
      _build_tf_config (h0 :: rest) current_host (Some ps_num) false =
        Raise (NotInList current_host)
      /\ class_of (NotInList current_host) = ValueErrorC)
  /\ (exists cfg,
        _build_tf_config ["a"; "b"; "c"] "c" (Some 0) false = Ok cfg
        /\ task cfg = {| task_index := 1; task_type := "worker" |}
        /\ cluster cfg !! "ps" = None).
Proof.
  rewrite !_build_tf_config_stages, ps_group_int. simpl Py.bind at 1.
  unfold task_dict, _is_host_master, slice_from_1. simpl.
  split; [|split; [|split]].
  - intros ->. rewrite String.eqb_refl. simpl. by eexists.
  - intros Hne i Hi Hfirst.
    rewrite (proj2 (String.eqb_neq current_host h0) Hne).
    rewrite drop_0, (index_first rest current_host i Hi Hfirst). simpl.
    by eexists.
  - intros Hne Hnot.
    rewrite (proj2 (String.eqb_neq current_host h0) Hne).
    by rewrite drop_0, (index_absent rest current_host Hnot).
  - eexists. split; [vm_compute; reflexivity|]. split; reflexivity.
Qed.

Lemma non_ps_role_precedence_witness :
  (exists cfg,
     _build_tf_config ["a"; "b"; "c"] "a" (Some 0) false = Ok cfg
     /\ task cfg = {| task_index := 0; task_type := "master" |})
  /\ (exists cfg,
        _build_tf_config ["a"; "b"; "c"] "c" (Some 0) false = Ok cfg
        /\ task cfg = {| task_index := 1; task_type := "worker" |})
  /\ _build_tf_config ["a"; "b"; "c"] "d" (Some 0) false =
       Raise (NotInList "d").
Proof.
  split; [|split].
  - apply (proj1 (non_ps_role_precedence "a" ["b"; "c"] "a" 0)). reflexivity.
  - apply (proj1 (proj2 (non_ps_role_precedence "a" ["b"; "c"] "c" 0))
             ltac:(discriminate) 1%nat).
    + reflexivity.
    + simpl. intros Hin. apply elem_of_cons in Hin as [Hin|Hin];
        [discriminate|by apply elem_of_nil in Hin].
  - apply (proj1 (proj2 (proj2 (non_ps_role_precedence "a" ["b"; "c"] "d" 0)))).
    + discriminate.
    + intros Hin. repeat (apply elem_of_cons in Hin as [Hin|Hin];
                          [discriminate|]).
      by apply elem_of_nil in Hin.
Defined.

(** ** The resolver and the store *)

Lemma lookup_app_add {A} (h news : list A) (k : nat) :
  ((h ++ news)%list) !! (length h + k)%nat = news !! k.
Proof. rewrite lookup_app_r by lia. f_equal. lia. Qed.

Lemma lookup_app_old {A} (h news : list A) (l : nat) (x : A) :
  h !! l = Some x -> ((h ++ news)%list) !! l = Some x.
Proof. intros Hl. by apply lookup_app_l_Some. Qed.

Lemma insert_app_add {A} (h news : list A) (k : nat) (x : A) :
  <[ (length h + k)%nat := x ]> (h ++ news)%list = (h ++ <[ k := x ]> news)%list.
Proof. rewrite insert_app_r_alt by lia. do 2 f_equal. lia. Qed.

(** One step of a computation on a store that extends [h] by [news]. *)
Lemma bind_ret {A B} (a : A) (k : A -> ST B) st :
  Store.bind (ret a) k st = k a st.
Proof. reflexivity. Qed.

Lemma bind_raise {A B} (e : exn) (k : A -> ST B) st :
  Store.bind (raise e) k st = Some (Raise e, st).
Proof. reflexivity. Qed.

Lemma bind_of_result {A B} (r : result A) (k : A -> ST B) st :
  Store.bind (of_result r) k st =
  match r with Ok a => k a st | Raise e => Some (Raise e, st) end.
Proof. by destruct r. Qed.

Lemma bind_bind {A B C} (m : ST A) (k1 : A -> ST B) (k2 : B -> ST C) st :
  Store.bind (Store.bind m k1) k2 st
  = Store.bind m (fun a => Store.bind (k1 a) k2) st.
Proof. unfold Store.bind. by destruct (m st) as [[[a|e] st']|]. Qed.

Lemma bind_new {B} (o : object) (k : nat -> ST B) h news :
  Store.bind (new o) k (h ++ news)%list
  = k (length h + length news)%nat (h ++ (news ++ [o]))%list.
Proof. unfold Store.bind, new. by rewrite length_app, app_assoc. Qed.

Lemma bind_get_list_old {B} l items (k : list string -> ST B) h news :
  h !! l = Some (OList items) ->
  Store.bind (get_list l) k (h ++ news)%list = k items (h ++ news)%list.
Proof.
  intros Hl. unfold Store.bind, get_list.
  by rewrite (lookup_app_old _ _ _ _ Hl).
Qed.

Lemma bind_get_list_new {B} j items (k : list string -> ST B) h news :
  news !! j = Some (OList items) ->
  Store.bind (get_list (length h + j)) k (h ++ news)%list = k items (h ++ news)%list.
Proof.
  intros Hj. unfold Store.bind, get_list. by rewrite lookup_app_add, Hj.
Qed.

Lemma bind_get_ref_new {B} j key entries r (k : nat -> ST B) h news :
  news !! j = Some (ODict entries) ->
  entries !! key = Some (VRef r) ->
  Store.bind (get_ref (length h + j) key) k (h ++ news)%list = k r (h ++ news)%list.
Proof.
  intros Hj Hkey. unfold Store.bind, get_ref.
  by rewrite lookup_app_add, Hj, Hkey.
Qed.

Lemma bind_set_item_new {B} j key v entries (k : unit -> ST B) h news :
  news !! j = Some (ODict entries) ->
  Store.bind (set_item (length h + j) key v) k (h ++ news)%list
  = k tt (h ++ <[ j := ODict (<[ key := v ]> entries) ]> news)%list.
Proof.
  intros Hj. unfold Store.bind, set_item.
  by rewrite lookup_app_add, Hj, insert_app_add.
Qed.

Local Ltac st_known :=
  repeat match goal with
  | H : ?t = _ |- context [?t] => rewrite H
  end.

Local Ltac st_step :=
  first
  [ rewrite bind_bind
  | rewrite bind_ret
  | rewrite bind_raise
  | erewrite bind_get_list_old by eassumption
  | erewrite bind_get_list_new by reflexivity
  | rewrite bind_new; cbn [length app]
  | erewrite bind_get_ref_new by (reflexivity || by simplify_map_eq)
  | erewrite bind_set_item_new by reflexivity; cbn [insert list_insert]
  | progress cbn [of_result fst snd]
  | progress cbv beta iota
  | progress st_known ].

Local Ltac st_split :=
  match goal with
  | |- context [Store.bind (if ?c then _ else _) _ _] => destruct c eqn:?
  | |- context [Store.bind (of_result ?r) _ _] => destruct r eqn:?
  end.

Local Ltac st_cluster :=
  intros key;
  rewrite ?lookup_insert, ?lookup_singleton;
  repeat case_decide; subst; try done;
  (eexists; split; [reflexivity|]; rewrite lookup_app_add; reflexivity).

Local Ltac st_represents :=
  split; [|lia];
  eexists _, _, _;
  cbn [cluster environment task task_index task_type];
  split; [rewrite lookup_app_add; reflexivity|];
  split; [rewrite lookup_app_add; reflexivity|];
  split; [st_cluster|rewrite lookup_app_add; reflexivity].

Local Ltac st_finish :=
  unfold Store.ret; cbv beta iota;
  eexists; split; [reflexivity|];
  first [reflexivity | st_represents].

(** A run of the resolver on a store that holds the host list leaves the
    store as it was, extended by new objects, and returns what the function
    on values returns: the same exception, or a reference to a new object
    that holds the same descriptor. *)
Lemma _build_tf_config_st_run (h : store) (hosts : nat) (hs : list string)
    current_host ps_num ps_task :
  h !! hosts = Some (OList hs) ->
  match _build_tf_config_st hosts current_host ps_num ps_task (h ++ [])%list with
  | Some (r, h') =>
      exists news, h' = (h ++ news)%list
      /\ match _build_tf_config hs current_host ps_num ps_task, r with
         | Ok cfg, Ok l => represents h' l cfg /\ (length h <= l)%nat
         | Raise e, Raise e' => e = e'
         | _, _ => False
         end
  | None => False
  end.
Proof.
  intros Hhosts.
  unfold _build_tf_config_st, host_addresses_st, _is_host_master_st.
  unfold _build_tf_config, _is_host_master, Py.bind. cbv zeta.
  repeat (repeat st_step; st_split).
  all: repeat st_step.
  all: st_finish.
Qed.

Lemma _build_tf_config_st_spec (h : store) (hosts : nat) (hs : list string)
    current_host ps_num ps_task :
  h !! hosts = Some (OList hs) ->
  exists r news,
    _build_tf_config_st hosts current_host ps_num ps_task h
      = Some (r, (h ++ news)%list)
    /\ match _build_tf_config hs current_host ps_num ps_task, r with
       | Ok cfg, Ok l =>
           represents (h ++ news) l cfg /\ (length h <= l)%nat
       | Raise e, Raise e' => e = e'
       | _, _ => False
       end.
Proof.
  intros Hhosts.
  pose proof (_build_tf_config_st_run h hosts hs current_host ps_num ps_task
                Hhosts) as Hrun.
  rewrite app_nil_r in Hrun.
  destruct (_build_tf_config_st hosts current_host ps_num ps_task h)
    as [[r h']|]; [|done].
  destruct Hrun as (news & -> & Hres). by exists r, news.
Qed.

Lemma Some_ODict_inj (a b : gmap string value) :
  Some (ODict a) = Some (ODict b) -> a = b.
Proof. by intros [= ->]. Qed.

(** A store holds at most one descriptor at a place. *)
Lemma represents_unique (h : store) (l : nat) (cfg1 cfg2 : tf_config) :
  represents h l cfg1 -> represents h l cfg2 -> cfg1 = cfg2.
Proof.
  intros (lc1 & lt1 & en1 & Hl1 & Hc1 & Hk1 & Ht1)
         (lc2 & lt2 & en2 & Hl2 & Hc2 & Hk2 & Ht2).
  rewrite Hl1 in Hl2. apply Some_ODict_inj in Hl2 as Htop.
  pose proof (f_equal (fun m : gmap string value => m !! "task") Htop) as Htask.
  pose proof (f_equal (fun m : gmap string value => m !! "cluster") Htop)
    as Hcluster.
  pose proof (f_equal (fun m : gmap string value => m !! "environment") Htop)
    as Henv.
  simpl in Htask, Hcluster, Henv.
  rewrite !lookup_insert in Htask, Hcluster, Henv.
  rewrite ?lookup_singleton in Htask, Hcluster, Henv.
  repeat case_decide; try done.
  injection Htask as <-. injection Hcluster as <-. injection Henv as Henv.
  rewrite Hc1 in Hc2. apply Some_ODict_inj in Hc2 as <-.
  rewrite Ht1 in Ht2. apply Some_ODict_inj in Ht2 as Htk.
  pose proof (f_equal (fun m : gmap string value => m !! "index") Htk)
    as Hindex.
  pose proof (f_equal (fun m : gmap string value => m !! "type") Htk) as Htype.
  simpl in Hindex, Htype.
  rewrite !lookup_insert in Hindex, Htype.
  rewrite ?lookup_singleton in Hindex, Htype.
  repeat case_decide; try done.
  injection Hindex as Hindex. injection Htype as Htype.
  assert (cluster cfg1 = cluster cfg2) as Hcl.
  { apply map_eq. intros key. specialize (Hk1 key). specialize (Hk2 key).
    destruct (cluster cfg1 !! key) as [e1|], (cluster cfg2 !! key) as [e2|];
      [|destruct Hk1 as (le & Hle & _); congruence
       |destruct Hk2 as (le & Hle & _); congruence|done].
    destruct Hk1 as (le1 & Hle1 & Hh1), Hk2 as (le2 & Hle2 & Hh2).
    rewrite Hle1 in Hle2. injection Hle2 as <-. congruence. }
  destruct cfg1 as [c1 e1 [i1 t1]], cfg2 as [c2 e2 [i2 t2]]. simpl in *.
  congruence.
Qed.

Lemma represents_extend (h news : store) (l : nat) (cfg : tf_config) :
  represents h l cfg -> represents (h ++ news) l cfg.
Proof.
  intros (lc & lt & entries & Hl & Hc & Hk & Ht).
  exists lc, lt, entries.
  split; [by apply lookup_app_old|]. split; [by apply lookup_app_old|].
  split; [|by apply lookup_app_old].
  intros key. specialize (Hk key).
  destruct (cluster cfg !! key) as [endpoints|]; [|done].
  destruct Hk as (le & Hle & Hh). exists le. split; [done|].
  by apply lookup_app_old.
Qed.

Lemma represents_lt (h : store) (l : nat) (cfg : tf_config) :
  represents h l cfg -> (l < length h)%nat.
Proof. intros (lc & lt & entries & Hl & _). by eapply lookup_lt_Some. Qed.

(** C8.  Resolution depends on nothing but its arguments.  The resolver is
    run here on a store of mutable objects, with [hosts] passed by
    reference.  Whatever else the store holds, the run leaves every object
    that was there as it was and only adds objects; two runs with the same
    arguments, in two stores that agree on nothing but the host list, raise
    the same exception or return places that hold the same descriptor, the
    one of the resolver on values; and a second run, made in the store that
    the first one left, does so too and returns a new place while the first
    descriptor stays as it was. *)
Theorem resolution_independent_of_store
    (h1 h2 : store) (hosts1 hosts2 : nat) (hs : list string)
    (current_host : string) (ps_num : option Z) (ps_task : bool) :
  h1 !! hosts1 = Some (OList hs) ->
  h2 !! hosts2 = Some (OList hs) ->
  exists r1 new1 r2 new2 r3 new3,
    _build_tf_config_st hosts1 current_host ps_num ps_task h1
      = Some (r1, (h1 ++ new1)%list)
    /\ _build_tf_config_st hosts2 current_host ps_num ps_task h2
       = Some (r2, (h2 ++ new2)%list)
    /\ _build_tf_config_st hosts1 current_host ps_num ps_task (h1 ++ new1)%list
       = Some (r3, ((h1 ++ new1) ++ new3)%list)
    /\ same_outcome (_build_tf_config hs current_host ps_num ps_task)
         (h1 ++ new1)%list r1 (h2 ++ new2)%list r2
    /\ same_outcome (_build_tf_config hs current_host ps_num ps_task)
         ((h1 ++ new1) ++ new3)%list r1 ((h1 ++ new1) ++ new3)%list r3
    /\ (forall l1 l3, r1 = Ok l1 -> r3 = Ok l3 ->
          (length h1 <= l1 < length (h1 ++ new1)%list)%nat
          /\ (length (h1 ++ new1)%list <= l3)%nat).
Proof.
  intros Hhosts1 Hhosts2.
  destruct (_build_tf_config_st_spec h1 hosts1 hs current_host ps_num ps_task
              Hhosts1) as (r1 & new1 & Hrun1 & Hres1).
  destruct (_build_tf_config_st_spec h2 hosts2 hs current_host ps_num ps_task
              Hhosts2) as (r2 & new2 & Hrun2 & Hres2).
  destruct (_build_tf_config_st_spec (h1 ++ new1) hosts1 hs current_host
              ps_num ps_task (lookup_app_old _ new1 _ _ Hhosts1))
    as (r3 & new3 & Hrun3 & Hres3).
  exists r1, new1, r2, new2, r3, new3.
  split; [done|]. split; [done|]. split; [done|].
  unfold same_outcome.
  destruct (_build_tf_config hs current_host ps_num ps_task) as [cfg|e],
    r1 as [l1|e1], r2 as [l2|e2], r3 as [l3|e3]; try done.
  - destruct Hres1 as [Hrep1 Hl1], Hres2 as [Hrep2 Hl2], Hres3 as [Hrep3 Hl3].
    split; [by exists cfg|]. split.
    + exists cfg. split; [done|]. split; [by apply represents_extend|done].
    + intros ? ? [= <-] [= <-]. apply represents_lt in Hrep1. lia.
  - subst. by repeat split.
Qed.

Lemma resolution_independent_of_store_witness :
  let h1 : store := [OList ["a"; "b"; "c"]] in
  let h2 : store := [ODict ∅; OList ["x"]; OList ["a"; "b"; "c"]] in
  exists r1 new1 r2 new2,
    _build_tf_config_st 0 "b" (Some 2) true h1 = Some (r1, (h1 ++ new1)%list)
    /\ _build_tf_config_st 2 "b" (Some 2) true h2 = Some (r2, (h2 ++ new2)%list)
    /\ same_outcome (_build_tf_config ["a"; "b"; "c"] "b" (Some 2) true)
         (h1 ++ new1)%list r1 (h2 ++ new2)%list r2.
Proof.
  intros h1 h2.
  destruct (resolution_independent_of_store h1 h2 0 2 ["a"; "b"; "c"] "b"
              (Some 2) true eq_refl eq_refl)
    as (r1 & new1 & r2 & new2 & _ & _ & Hrun1 & Hrun2 & _ & Hsame & _).
  exists r1, new1, r2, new2. split; [exact Hrun1|]. split; [exact Hrun2|].
  exact Hsame.
Defined.

(** C9.  When the parameter-server call and the worker call for one host
    both return, the two descriptors have the same cluster and the same
    environment tag; only the task entry can differ. *)
Theorem ps_and_worker_descriptors_agree hosts current_host ps_num cfg_ps cfg_w :
  _build_tf_config hosts current_host ps_num true = Ok cfg_ps ->
  _build_tf_config hosts current_host ps_num false = Ok cfg_w ->
  cluster cfg_ps = cluster cfg_w
  /\ environment cfg_ps = environment cfg_w
  /\ cfg_ps = {| cluster := cluster cfg_w;
                 environment := environment cfg_w;
                 task := task cfg_ps |}.
Proof.
  intros Hps Hw.
  apply _build_tf_config_Ok in Hps as (ps & Hg & _ & Hc & He).
  apply _build_tf_config_Ok in Hw as (ps' & Hg' & _ & Hc' & He').
  rewrite Hg in Hg'. injection Hg' as <-.
  assert (cluster cfg_ps = cluster cfg_w) as Hcc by congruence.
  assert (environment cfg_ps = environment cfg_w) as Hee by congruence.
  split; [done|]. split; [done|].
  destruct cfg_ps; simpl in *. by rewrite Hcc, Hee.
Qed.

Lemma ps_and_worker_descriptors_agree_witness :
  exists cfg_ps cfg_w,
    _build_tf_config ["a"; "b"; "c"] "b" (Some 2) true = Ok cfg_ps
    /\ _build_tf_config ["a"; "b"; "c"] "b" (Some 2) false = Ok cfg_w
    /\ cluster cfg_ps = cluster cfg_w
    /\ task cfg_ps <> task cfg_w.
Proof.
  destruct (_build_tf_config ["a"; "b"; "c"] "b" (Some 2) true)
    as [cfg_ps|e] eqn:Hps; [|vm_compute in Hps; discriminate].
  destruct (_build_tf_config ["a"; "b"; "c"] "b" (Some 2) false)
    as [cfg_w|e] eqn:Hw; [|vm_compute in Hw; discriminate].
  exists cfg_ps, cfg_w. split; [reflexivity|]. split; [reflexivity|].
  split.
  - apply (ps_and_worker_descriptors_agree ["a"; "b"; "c"] "b" (Some 2)
             cfg_ps cfg_w Hps Hw).
  - vm_compute in Hps, Hw. injection Hps as <-. injection Hw as <-.
    simpl. discriminate.
Defined.

(** C10.  A returned descriptor is consistent with itself: the cluster has a
    list under the returned task type, the task index is a position of that
    list, and the endpoint there is the current host joined with the port of
    that role, 2223 for ps and 2222 for master and worker. *)
Theorem descriptor_consistent hosts current_host ps_num ps_task cfg :
  _build_tf_config hosts current_host ps_num ps_task = Ok cfg ->
  exists endpoints,
    cluster cfg !! task_type (task cfg) = Some endpoints
    /\ 0 <= task_index (task cfg) < Z.of_nat (length endpoints)
    /\ endpoints !! Z.to_nat (task_index (task cfg))
       = Some (current_host +:+ ":" +:+ role_port (task_type (task cfg))).
Proof.
  intros Hcfg. apply _build_tf_config_Ok in Hcfg as (ps & Hg & Ht & -> & _).
  unfold task_dict in Ht. destruct ps_task.
  - destruct ps as [l|]; [|discriminate].
    destruct (index l current_host) as [i|e] eqn:Hi; simpl in Ht; [|discriminate].
    injection Ht as <-. simpl.
    rewrite cluster_dict_ps, (ps_group_truthy _ _ _ Hg).
    apply index_Ok in Hi as (Hr & Hl & _).
    eexists. split; [reflexivity|]. unfold host_addresses.
    rewrite length_map, list_lookup_fmap, Hl. done.
  - unfold _is_host_master in Ht. destruct hosts as [|h0 rest]; [discriminate|].
    simpl in Ht. destruct (String.eqb_spec current_host h0) as [->|Hne].
    + injection Ht as <-. simpl. rewrite cluster_dict_master.
      eexists. split; [reflexivity|]. simpl. split; [lia|done].
    + unfold slice_from_1 in Ht. simpl in Ht. rewrite drop_0 in Ht.
      destruct (index rest current_host) as [i|e] eqn:Hi; simpl in Ht;
        [|discriminate].
      injection Ht as <-. simpl. rewrite cluster_dict_worker. simpl.
      rewrite drop_0.
      apply index_Ok in Hi as (Hr & Hl & _).
      destruct rest as [|h1 rest]; [simpl in Hr; lia|].
      eexists. split; [reflexivity|]. unfold host_addresses.
      rewrite length_map, list_lookup_fmap, Hl. done.
Qed.

Lemma descriptor_consistent_witness :
  exists cfg endpoints,
    _build_tf_config ["a"; "b"; "c"] "b" (Some 2) true = Ok cfg
    /\ cluster cfg !! task_type (task cfg) = Some endpoints
    /\ endpoints !! Z.to_nat (task_index (task cfg))
       = Some ("b" +:+ ":" +:+ role_port (task_type (task cfg))).
Proof.
  destruct (_build_tf_config ["a"; "b"; "c"] "b" (Some 2) true)
    as [cfg|e] eqn:Hcfg; [|vm_compute in Hcfg; discriminate].
  destruct (descriptor_consistent ["a"; "b"; "c"] "b" (Some 2) true cfg Hcfg)
    as (endpoints & Hl & _ & He).
  exists cfg, endpoints. split; [reflexivity|]. split; assumption.
Defined.

(** ** The liveness poller *)

Section Poller.

Variable probes : nat -> Z.
Variable master : string.

Local Abbreviation step := (poller_step probes master).
Local Abbreviation cmd := (curl_command master).
Local Abbreviation slept w := (record_event (sleep 10) (record_probe cmd w)).

Lemma after_cycles_0 w : after_cycles master 0 w = w.
Proof.
  destruct w as [tr k]. unfold after_cycles, success_cycles. simpl.
  by rewrite app_nil_r, Nat.add_0_r.
Qed.

Lemma after_cycles_S n w :
  after_cycles master (S n) w = after_cycles master n (slept w).
Proof.
  destruct w as [tr k]. unfold after_cycles, success_cycles. simpl.
  f_equal; [|lia]. by rewrite <- !app_assoc.
Qed.

(** Shifting a run of successful probes by one cycle. *)
Lemma probes_up_head n w :
  (forall i, (i < S n)%nat -> probes (probes_made w + i) = 0) ->
  probes (probes_made w) = 0.
Proof. intros Hup. rewrite <- (Nat.add_0_r (probes_made w)). apply Hup. lia. Qed.

Lemma probes_up_tail n w :
  (forall i, (i < S n)%nat -> probes (probes_made w + i) = 0) ->
  forall i, (i < n)%nat -> probes (probes_made (slept w) + i) = 0.
Proof.
  intros Hup i Hi. simpl. rewrite <- Nat.add_succ_r. apply Hup. lia.
Qed.

Lemma probes_up_cons n w :
  probes (probes_made w) = 0 ->
  (forall i, (i < n)%nat -> probes (probes_made (slept w) + i) = 0) ->
  forall i, (i < S n)%nat -> probes (probes_made w + i) = 0.
Proof.
  intros H0 Hup [|i] Hi; [by rewrite Nat.add_0_r|].
  rewrite Nat.add_succ_r. apply (Hup i). lia.
Qed.

Lemma poller_step_deterministic s s1 s2 : step s s1 -> step s s2 -> s1 = s2.
Proof. intros H1 H2. inversion H1; subst; inversion H2; subst; done. Qed.

Lemma poller_exited_stuck w s : ~ step (Exited, w) s.
Proof. intros H. inversion H. Qed.

Lemma poller_nsteps_deterministic k s s1 s2 :
  nsteps step k s s1 -> nsteps step k s s2 -> s1 = s2.
Proof.
  intros H1. revert s2. induction H1 as [|k x y z Hxy _ IH]; intros s2 H2.
  - by inversion H2.
  - inversion H2 as [|? ? y' ? Hxy' Hrest]; subst.
    rewrite <- (poller_step_deterministic _ _ _ Hxy Hxy') in Hrest. by apply IH.
Qed.

(** While the probes succeed the loop goes round. *)
Lemma poller_cycles n w :
  (forall i, (i < n)%nat -> probes (probes_made w + i) = 0) ->
  nsteps step n (AtLoopHead, w) (AtLoopHead, after_cycles master n w).
Proof.
  revert w. induction n as [|n IH]; intros w Hup.
  - rewrite after_cycles_0. constructor.
  - rewrite after_cycles_S. eapply nsteps_l.
    + apply probe_succeeded. by eapply probes_up_head.
    + apply IH. by apply probes_up_tail.
Qed.

(** Every run from the loop head is a number of successful cycles, ended
    or not by one failed probe. *)
Lemma poller_nsteps_inv k w s :
  nsteps step k (AtLoopHead, w) s ->
  match s.1 with
  | AtLoopHead =>
      (forall i, (i < k)%nat -> probes (probes_made w + i) = 0)
      /\ s.2 = after_cycles master k w
  | Exited =>
      exists n, k = S n
        /\ (forall i, (i < n)%nat -> probes (probes_made w + i) = 0)
        /\ probes (probes_made w + n) <> 0
        /\ s.2 = record_probe cmd (after_cycles master n w)
  end.
Proof.
  revert w. induction k as [|k IH]; intros w Hrun.
  - inversion Hrun; subst. simpl. split; [lia|by rewrite after_cycles_0].
  - inversion Hrun as [|? ? y ? Hfirst Hrest]; subst.
    inversion Hfirst as [w0 Hup|w0 Hdown]; subst.
    + apply IH in Hrest. destruct (s.1).
      * destruct Hrest as [Hall ->]. split; [|by rewrite after_cycles_S].
        by apply probes_up_cons.
      * destruct Hrest as (n & -> & Hall & Hdown & ->).
        exists (S n). split; [done|]. split; [|split].
        -- by apply probes_up_cons.
        -- rewrite Nat.add_succ_r. exact Hdown.
        -- by rewrite after_cycles_S.
    + destruct k as [|k].
      * inversion Hrest; subst. simpl. exists 0%nat.
        rewrite after_cycles_0, Nat.add_0_r. repeat split; [lia|done].
      * inversion Hrest as [|? ? y ? Hstuck _]; subst.
        by apply poller_exited_stuck in Hstuck.
Qed.


Lemma _wait_until_master_is_down_returns n fuel w :
  (forall i, (i < n)%nat -> probes (probes_made w + i) = 0) ->
  probes (probes_made w + n) <> 0 ->
  (n < fuel)%nat ->
  _wait_until_master_is_down probes fuel master w
    = Returned tt (record_probe cmd (after_cycles master n w)).
Proof.
  revert fuel w. induction n as [|n IH]; intros fuel w Hup Hdown Hfuel;
    (destruct fuel as [|fuel]; [lia|]); simpl.
  - rewrite Nat.add_0_r in Hdown. apply Z.eqb_neq in Hdown. rewrite Hdown.
    by rewrite after_cycles_0.
  - rewrite (probes_up_head _ _ Hup). simpl. rewrite after_cycles_S.
    apply IH; [by apply probes_up_tail| |lia].
    simpl. by rewrite <- Nat.add_succ_r.
Qed.

End Poller.



(** ** The dispatcher *)

Section Dispatcher.

Variable json_dumps : tf_config -> string.
Variable probes : nat -> Z.

Local Abbreviation ps_num_of env :=
  (additional_framework_parameters env !! SAGEMAKER_PARAMETER_SERVER_NUM).

(** A host among the first [n] of several resolves as parameter server. *)
Lemma _build_tf_config_ps_host hosts current_host (n : Z) :
  (1 < length hosts)%nat -> 0 < n ->
  current_host ∈ take (Z.to_nat n) hosts ->
  exists cfg,
    _build_tf_config hosts current_host (Some n) true = Ok cfg
    /\ task_type (task cfg) = "ps".
Proof.
  intros Hlen Hn Hin. rewrite _build_tf_config_stages, ps_group_int.
  rewrite (proj2 (Z.ltb_lt 1 _)), (proj2 (Z.ltb_lt 0 n)) by lia. simpl.
  destruct (index_present _ _ Hin) as [i ->]. simpl. by eexists.
Qed.

(** A host of the list resolves when it is not asked to be a parameter
    server, and as a worker unless it is the first. *)
Lemma _build_tf_config_member h0 rest current_host (n : Z) :
  current_host ∈ h0 :: rest ->
  exists cfg,
    _build_tf_config (h0 :: rest) current_host (Some n) false = Ok cfg
    /\ (current_host <> h0 -> task_type (task cfg) = "worker").
Proof.
  intros Hin. rewrite _build_tf_config_stages, ps_group_int. simpl Py.bind at 1.
  unfold task_dict, _is_host_master, slice_from_1. simpl. rewrite drop_0.
  destruct (String.eqb_spec current_host h0) as [->|Hne]; simpl.
  - by eexists.
  - apply elem_of_cons in Hin as [?|Hin]; [done|].
    destruct (index_present _ _ Hin) as [i ->]. simpl. by eexists.
Qed.

Lemma train_single_process env w :
  (1 <? Z.of_nat (length (hosts env))) && truthy_opt_int (ps_num_of env) = false ->
  train json_dumps probes 0 env w
    = Returned tt
        (record_event
           (run_module (module_dir env) (to_cmd_args env) (to_env_vars env)
              (module_name env) true) w)
  /\ forall fuel,
       train json_dumps probes fuel env w = train json_dumps probes 0 env w.
Proof. intros Hcond. unfold train. by rewrite Hcond. Qed.

Lemma train_ps_host env (n : Z) master cfg_ps cfg_w fuel w :
  (1 < length (hosts env))%nat ->
  ps_num_of env = Some n -> 0 < n ->
  head (hosts env) = Some master ->
  current_host env ∈ take (Z.to_nat n) (hosts env) ->
  _build_tf_config (hosts env) (current_host env) (Some n) true = Ok cfg_ps ->
  _build_tf_config (hosts env) (current_host env) (Some n) false = Ok cfg_w ->
  train json_dumps probes fuel env w
    = _wait_until_master_is_down probes fuel master
        {| trace := trace w ++
             [run_module (module_dir env) (to_cmd_args env)
                (<[ "TF_CONFIG" := json_dumps cfg_ps ]> (to_env_vars env))
                (module_name env) false;
              write_env_vars
                (<[ "TF_CONFIG" := json_dumps cfg_w ]> (to_env_vars env));
              run (module_name env) (to_cmd_args env)
                (<[ "TF_CONFIG" := json_dumps cfg_w ]> (to_env_vars env))];
           probes_made := probes_made w |}.
Proof.
  intros Hlen Hnum Hn Hmaster Hin Hps Hw.
  unfold train, _should_run_ps_on_this_host. rewrite Hnum. simpl.
  rewrite (proj2 (Z.ltb_lt 1 _)), (proj2 (Z.eqb_neq n 0)),
    (proj2 (Z.leb_le 0 n)) by lia. simpl.
  rewrite (proj2 (contains_elem_of _ _) Hin).
  unfold _run_ps, _run_worker, _env_vars_with_tf_config, mbind, lift, emit.
  rewrite Hnum, Hps, Hw. simpl.
  destruct (hosts env) as [|h0 rest]; [discriminate|].
  injection Hmaster as ->. simpl. unfold record_event. simpl.
  by rewrite <- !app_assoc.
Qed.

Lemma train_worker_host env (n : Z) cfg_w fuel w :
  (1 < length (hosts env))%nat ->
  ps_num_of env = Some n -> 0 < n ->
  current_host env ∉ take (Z.to_nat n) (hosts env) ->
  _build_tf_config (hosts env) (current_host env) (Some n) false = Ok cfg_w ->
  train json_dumps probes fuel env w
    = Returned tt
        (record_event
           (run_module (module_dir env) (to_cmd_args env)
              (<[ "TF_CONFIG" := json_dumps cfg_w ]> (to_env_vars env))
              (module_name env) true) w).
Proof.
  intros Hlen Hnum Hn Hnot Hw.
  unfold train, _should_run_ps_on_this_host. rewrite Hnum. simpl.
  rewrite (proj2 (Z.ltb_lt 1 _)), (proj2 (Z.eqb_neq n 0)),
    (proj2 (Z.leb_le 0 n)) by lia. simpl.
  destruct (contains _ _) eqn:Hc; [by apply contains_elem_of in Hc|].
  unfold _run_worker, _env_vars_with_tf_config, mbind, lift, emit.
  by rewrite Hnum, Hw.
Qed.

End Dispatcher.

(** C5, as the specification states it, fails: on a single host the one
    launch receives [to_env_vars()] as it is, and the environment that
    carries the descriptor differs from it at its ["TF_CONFIG"] key. *)
Lemma sole_launch_carries_descriptor_fails :
  ~ sole_launch_carries_descriptor
      (fun cfg => task_type (task cfg)) (fun _ => 0) 0
      {| hosts := ["a"]; current_host := "a";
         additional_framework_parameters := ∅;
         module_dir := "s3://bucket/code"; module_name := "train";
         to_cmd_args := ["--epochs"; "1"]; to_env_vars := ∅ |}.
Proof.
  intros (env_vars & Hvars & Hrun).
  assert (env_vars = ∅) as ->.
  { unfold train in Hrun. simpl in Hrun. unfold emit, record_event in Hrun.
    simpl in Hrun. congruence. }
  unfold _env_vars_with_tf_config in Hvars.
  destruct (_build_tf_config _ _ _ _) as [cfg|e]; [|discriminate].
  assert (forall m m' : gmap string string, Ok m = Ok m' -> m = m') as Hinj
    by (intros m m' H; by injection H).
  apply Hinj in Hvars. by apply insert_non_empty in Hvars.
Qed.

(** C5, amended.  With exactly one host, or with the parameter-server count
    absent or 0, [train] resolves no topology: whatever the fuel and the
    probes, it returns after one blocking [run_module] launch whose
    environment is [to_env_vars()] unchanged. *)
Theorem single_process_launch
    (json_dumps : tf_config -> string) (probes : nat -> Z) (fuel : nat)
    (env : TrainingEnv) (w : world) :
  length (hosts env) = 1%nat
  \/ additional_framework_parameters env !! SAGEMAKER_PARAMETER_SERVER_NUM = None
  \/ additional_framework_parameters env !! SAGEMAKER_PARAMETER_SERVER_NUM = Some 0 ->
  train json_dumps probes fuel env w
    = Returned tt
        {| trace := trace w ++
             [run_module (module_dir env) (to_cmd_args env) (to_env_vars env)
                (module_name env) true];
           probes_made := probes_made w |}.
Proof.
  intros Hsingle.
  destruct (train_single_process json_dumps probes env w) as [H0 Hfuel].
  - destruct Hsingle as [Hone|[Hnone|Hzero]].
    + by rewrite Hone.
    + rewrite Hnone. apply andb_false_r.
    + rewrite Hzero. apply andb_false_r.
  - by rewrite Hfuel, H0.
Qed.

Lemma single_process_launch_witness :
  train (fun cfg => task_type (task cfg)) (fun _ => 0) 0
    {| hosts := ["a"]; current_host := "a";
       additional_framework_parameters :=
         {[ SAGEMAKER_PARAMETER_SERVER_NUM := 2 ]};
       module_dir := "s3://bucket/code"; module_name := "train";
       to_cmd_args := ["--epochs"; "1"]; to_env_vars := ∅ |}
    initial_world
  = Returned tt
      {| trace := [run_module "s3://bucket/code" ["--epochs"; "1"] ∅ "train" true];
         probes_made := 0 |}.
Proof.
  apply (single_process_launch (fun cfg => task_type (task cfg)) (fun _ => 0) 0
    {| hosts := ["a"]; current_host := "a";
       additional_framework_parameters :=
         {[ SAGEMAKER_PARAMETER_SERVER_NUM := 2 ]};
       module_dir := "s3://bucket/code"; module_name := "train";
       to_cmd_args := ["--epochs"; "1"]; to_env_vars := ∅ |}
    initial_world).
  left. reflexivity.
Defined.

(** C6.  In a distributed job, with several hosts and a positive count [n]:
    a host among the first [n] resolves both as parameter server and as
    non-parameter-server process, launches the parameter server detached
    with the first environment, writes the second environment and runs the
    installed module with it, and then enters the poller against the first
    host; any other host of the list resolves as worker and returns after
    the single blocking [run_module] launch. *)
Theorem distributed_dispatch
    (json_dumps : tf_config -> string) (probes : nat -> Z)
    (env : TrainingEnv) (n : Z) :
  (1 < length (hosts env))%nat ->
  additional_framework_parameters env !! SAGEMAKER_PARAMETER_SERVER_NUM = Some n ->
  0 < n ->
  (current_host env ∈ take (Z.to_nat n) (hosts env) ->
     exists master cfg_ps cfg_w,
       head (hosts env) = Some master
       /\ _build_tf_config (hosts env) (current_host env) (Some n) true = Ok cfg_ps
       /\ task_type (task cfg_ps) = "ps"
       /\ _build_tf_config (hosts env) (current_host env) (Some n) false = Ok cfg_w
       /\ forall fuel w,
            train json_dumps probes fuel env w
            = _wait_until_master_is_down probes fuel master
                {| trace := trace w ++
                     [run_module (module_dir env) (to_cmd_args env)
                        (<[ "TF_CONFIG" := json_dumps cfg_ps ]> (to_env_vars env))
                        (module_name env) false;
                      write_env_vars
                        (<[ "TF_CONFIG" := json_dumps cfg_w ]> (to_env_vars env));
                      run (module_name env) (to_cmd_args env)
                        (<[ "TF_CONFIG" := json_dumps cfg_w ]> (to_env_vars env))];
                   probes_made := probes_made w |})
  /\ (current_host env ∉ take (Z.to_nat n) (hosts env) ->
      current_host env ∈ hosts env ->
      exists cfg_w,
        _build_tf_config (hosts env) (current_host env) (Some n) false = Ok cfg_w
        /\ task_type (task cfg_w) = "worker"
        /\ forall fuel w,
             train json_dumps probes fuel env w
             = Returned tt
                 {| trace := trace w ++
                      [run_module (module_dir env) (to_cmd_args env)
                         (<[ "TF_CONFIG" := json_dumps cfg_w ]> (to_env_vars env))
                         (module_name env) true];
                    probes_made := probes_made w |}).
Proof.
  intros Hlen Hnum Hn. split.
  - intros Hin.
    destruct (_build_tf_config_ps_host _ _ n Hlen Hn Hin) as (cfg_ps & Hps & Hty).
    destruct (hosts env) as [|h0 rest] eqn:Hhosts; [simpl in Hlen; lia|].
    assert (current_host env ∈ h0 :: rest) as Hmem.
    { apply elem_of_take in Hin as (i & Hi & _).
      by eapply list_elem_of_lookup_2. }
    destruct (_build_tf_config_member h0 rest _ n Hmem) as (cfg_w & Hw & _).
    exists h0, cfg_ps, cfg_w. repeat split; try done.
    intros fuel w.
    apply (train_ps_host json_dumps probes env n h0 cfg_ps cfg_w fuel w);
      rewrite ?Hhosts; done.
  - intros Hnot Hmem.
    destruct (hosts env) as [|h0 rest] eqn:Hhosts; [simpl in Hlen; lia|].
    destruct (_build_tf_config_member h0 rest _ n Hmem) as (cfg_w & Hw & Hty).
    exists cfg_w. split; [done|]. split.
    + apply Hty. intros Heq. apply Hnot. rewrite Heq.
      replace (Z.to_nat n) with (S (Z.to_nat n - 1)) by lia. left.
    + intros fuel w.
      apply (train_worker_host json_dumps probes env n cfg_w fuel w);
        rewrite ?Hhosts; done.
Qed.

Lemma distributed_dispatch_witness :
  let json_dumps := fun cfg : tf_config => task_type (task cfg) in
  let probes := fun i : nat => if (i <? 2)%nat then 0 else 7 in
  (exists cfg_ps cfg_w,
     _build_tf_config ["a"; "b"; "c"] "b" (Some 2) true = Ok cfg_ps
     /\ _build_tf_config ["a"; "b"; "c"] "b" (Some 2) false = Ok cfg_w
     /\ train json_dumps probes 3 (three_host_env "b") initial_world
        = Returned tt
            {| trace :=
                 [run_module "s3://bucket/code" ["--epochs"; "1"]
                    {[ "TF_CONFIG" := json_dumps cfg_ps ]} "train" false;
                  write_env_vars {[ "TF_CONFIG" := json_dumps cfg_w ]};
                  run "train" ["--epochs"; "1"]
                    {[ "TF_CONFIG" := json_dumps cfg_w ]};
                  check_call ["curl"; "a:2222"]; sleep 10;
                  check_call ["curl"; "a:2222"]; sleep 10;
                  check_call ["curl"; "a:2222"]];
               probes_made := 3 |})
  /\ (exists cfg_w,
        _build_tf_config ["a"; "b"; "c"] "c" (Some 2) false = Ok cfg_w
        /\ train json_dumps probes 3 (three_host_env "c") initial_world
           = Returned tt
               {| trace :=
                    [run_module "s3://bucket/code" ["--epochs"; "1"]
                       {[ "TF_CONFIG" := json_dumps cfg_w ]} "train" true];
                  probes_made := 0 |}).
Proof.
  intros json_dumps probes. split.
  - destruct (distributed_dispatch json_dumps probes (three_host_env "b") 2)
      as [Hps _]; [simpl; lia|reflexivity|lia|].
    destruct Hps as (master & cfg_ps & cfg_w & Hm & Hps & _ & Hw & Htrain).
    { simpl. right. left. }
    exists cfg_ps, cfg_w. split; [exact Hps|]. split; [exact Hw|].
    rewrite Htrain. injection Hm as <-. reflexivity.
  - destruct (distributed_dispatch json_dumps probes (three_host_env "c") 2)
      as [_ Hw]; [simpl; lia|reflexivity|lia|].
    destruct Hw as (cfg_w & Hw & _ & Htrain).
    { simpl. intros Hin.
      repeat (apply elem_of_cons in Hin as [Hin|Hin]; [discriminate|]).
      by apply elem_of_nil in Hin. }
    { simpl. right. right. left. }
    exists cfg_w. split; [exact Hw|]. rewrite Htrain. reflexivity.
Defined.

(** * Further properties of the module *)

(** ** The resolver on every input *)

(** The result of the resolver for an int count, in closed form. *)
Lemma _build_tf_config_int hosts current_host (n : Z) ps_task :
  _build_tf_config hosts current_host (Some n) ps_task =
  (let ps := if (1 <? Z.of_nat (length hosts)) && (0 <? n)
             then Some (take (Z.to_nat n) hosts) else None in
   tk <- task_dict hosts current_host ps ps_task ;;
   Ok {| cluster := cluster_dict hosts ps; environment := "cloud"; task := tk |}).
Proof. by rewrite _build_tf_config_stages, ps_group_int. Qed.

Lemma index_Ok_iff (l : list string) (x : string) :
  (exists i, index l x = Ok i) <-> x ∈ l.
Proof.
  split; [|apply index_present].
  intros [i Hi]. apply index_Ok in Hi as (_ & Hl & _).
  by eapply list_elem_of_lookup_2.
Qed.

Lemma ps_condition (hosts : list string) (n : Z) :
  (1 <? Z.of_nat (length hosts)) && (0 <? n) = true
  <-> (1 < length hosts)%nat /\ 0 < n.
Proof. rewrite andb_true_iff, !Z.ltb_lt. lia. Qed.

(** X1.  For an int count the resolver returns a descriptor exactly when the
    current host can be indexed in its role's list: for a parameter-server
    process, when there are several hosts, a positive count and the host is
    among the first [n]; otherwise, when the host is in the host list. *)
Theorem resolves_iff hosts current_host (n : Z) ps_task :
  (exists cfg, _build_tf_config hosts current_host (Some n) ps_task = Ok cfg)
  <-> (if ps_task
       then (1 < length hosts)%nat /\ 0 < n
            /\ current_host ∈ take (Z.to_nat n) hosts
       else current_host ∈ hosts).
Proof.
  rewrite _build_tf_config_int. cbv zeta. unfold task_dict.
  destruct ps_task.
  - destruct ((1 <? Z.of_nat (length hosts)) && (0 <? n)) eqn:Hc.
    + apply ps_condition in Hc as [Hlen Hn]. rewrite <- index_Ok_iff.
      split.
      * intros [cfg Hcfg].
        destruct (index _ current_host) as [i|e]; [|discriminate]. eauto.
      * intros (_ & _ & [i ->]). simpl. eauto.
    + split; [intros [cfg [=]]|].
      intros (Hlen & Hn & _).
      assert ((1 <? Z.of_nat (length hosts)) && (0 <? n) = true) as Hc'
        by by apply ps_condition.
      congruence.
  - unfold _is_host_master. destruct hosts as [|h0 rest]; simpl.
    + split; [intros [cfg [=]]|by intros ?%elem_of_nil].
    + unfold slice_from_1. simpl. rewrite drop_0.
      destruct (String.eqb_spec current_host h0) as [->|Hne]; simpl.
      * split; [intros _; left|eauto].
      * rewrite elem_of_cons, <- index_Ok_iff. split.
        -- intros [cfg Hcfg].
           destruct (index rest current_host) as [i|e]; [|discriminate]. eauto.
        -- intros [?|[i ->]]; [done|]. simpl. eauto.
Qed.

Lemma index_error_iff hosts current_host ps_num ps_task :
  _build_tf_config hosts current_host ps_num ps_task = Raise IndexOutOfRange
  <-> hosts = [] /\ ps_task = false.
Proof.
  rewrite _build_tf_config_stages. split.
  - unfold ps_group. destruct hosts as [|h0 rest].
    + destruct ps_task; [discriminate|done].
    + intros Hraise. exfalso.
      destruct (1 <? Z.of_nat (length (h0 :: rest))).
      * destruct ps_num as [n|]; [|discriminate]. simpl in Hraise.
        unfold task_dict, _is_host_master in Hraise. simpl in Hraise.
        destruct ps_task.
        -- destruct (0 <? n); [|discriminate].
           destruct (index _ current_host) as [i|e] eqn:Hi; [discriminate|].
           by apply index_Raise in Hi as [-> _].
        -- destruct (current_host =? h0)%string; [discriminate|].
           destruct (index _ current_host) as [i|e] eqn:Hi; [discriminate|].
           by apply index_Raise in Hi as [-> _].
      * simpl in Hraise. unfold task_dict, _is_host_master in Hraise.
        simpl in Hraise. destruct ps_task; [discriminate|].
        destruct (current_host =? h0)%string; [discriminate|].
        destruct (index _ current_host) as [i|e] eqn:Hi; [discriminate|].
        by apply index_Raise in Hi as [-> _].
  - by intros [-> ->].
Qed.

(** X2.  The errors of an empty host list.  The resolver raises the
    IndexError of [hosts[0]] exactly when the host list is empty and
    [ps_task] is false; on an empty host list with [ps_task] true it raises
    its own ValueError instead.  Both hold whatever the count, absent
    included. *)
Theorem empty_host_list_errors hosts current_host ps_num ps_task :
  (_build_tf_config hosts current_host ps_num ps_task = Raise IndexOutOfRange
   <-> hosts = [] /\ ps_task = false)
  /\ _build_tf_config [] current_host ps_num ps_task
     = (if ps_task
        then Raise (ValueError
               "Can not have a ps task if there are no parameter servers in the cluster")
        else Raise IndexOutOfRange).
Proof.
  split; [apply index_error_iff|]. by destruct ps_task.
Qed.

(** X3.  For an int count the resolver raises its own ValueError exactly
    when a parameter-server process is asked for and there is no
    parameter-server group: at most one host, or a count of zero or less. *)
Theorem no_parameter_servers_error_iff hosts current_host (n : Z) ps_task msg :
  _build_tf_config hosts current_host (Some n) ps_task = Raise (ValueError msg)
  <-> ps_task = true
      /\ ((length hosts <= 1)%nat \/ n <= 0)
      /\ msg = "Can not have a ps task if there are no parameter servers in the cluster".
Proof.
  rewrite _build_tf_config_int. cbv zeta. unfold task_dict, _is_host_master.
  destruct ps_task.
  - destruct ((1 <? Z.of_nat (length hosts)) && (0 <? n)) eqn:Hc.
    + apply ps_condition in Hc as [Hlen Hn]. split; [|lia].
      destruct (index _ current_host) as [i|e] eqn:Hi; [discriminate|].
      by apply index_Raise in Hi as [-> _].
    + split.
      * intros [= <-]. split; [done|]. split; [|done].
        destruct (decide (length hosts <= 1)%nat); [by left|right].
        destruct (Z.le_gt_cases n 0); [done|].
        assert ((1 <? Z.of_nat (length hosts)) && (0 <? n) = true) as Hc'
          by (apply ps_condition; lia).
        congruence.
      * by intros (_ & _ & ->).
  - split; [|by intros [[=] _]].
    destruct hosts as [|h0 rest]; [discriminate|]. simpl.
    destruct (current_host =? h0)%string; [discriminate|].
    destruct (index _ current_host) as [i|e] eqn:Hi; [discriminate|].
    by apply index_Raise in Hi as [-> _].
Qed.

(** ** The cluster of a returned descriptor *)

Lemma resolved_hosts_nonempty hosts current_host ps_num ps_task cfg :
  _build_tf_config hosts current_host ps_num ps_task = Ok cfg -> hosts <> [].
Proof.
  intros Hcfg ->. rewrite _build_tf_config_stages in Hcfg.
  by destruct ps_task.
Qed.

Lemma cluster_dict_keys hosts ps key :
  is_Some (cluster_dict hosts ps !! key) ->
  key = "master" \/ key = "ps" \/ key = "worker".
Proof.
  unfold cluster_dict.
  destruct (truthy_list (slice_from_1 hosts)), ps as [[|x l]|]; simpl;
    intros [v Hv];
    repeat (apply lookup_insert_Some in Hv as [[<- _]|[_ Hv]]; [tauto|]);
    apply lookup_singleton_Some in Hv as [<- _]; tauto.
Qed.

(** X4.  In every returned descriptor the master list is the first host
    alone, the worker entry exists exactly when there are further hosts and
    lists them in order, so that master followed by worker is the whole host
    list at port 2222; and the cluster has no key besides master, ps and
    worker. *)
Theorem master_and_workers_partition_hosts hosts current_host ps_num ps_task cfg :
  _build_tf_config hosts current_host ps_num ps_task = Ok cfg ->
  exists h0 rest,
    hosts = h0 :: rest
    /\ cluster cfg !! "master" = Some [h0 +:+ ":2222"]
    /\ cluster cfg !! "worker"
       = (if rest is [] then None else Some (map (fun h => h +:+ ":2222") rest))
    /\ ([h0 +:+ ":2222"] ++ default [] (cluster cfg !! "worker"))%list
       = map (fun h => h +:+ ":2222") hosts
    /\ (forall key, is_Some (cluster cfg !! key) ->
          key = "master" \/ key = "ps" \/ key = "worker").
Proof.
  intros Hcfg. pose proof (resolved_hosts_nonempty _ _ _ _ _ Hcfg) as Hne.
  apply _build_tf_config_Ok in Hcfg as (ps & _ & _ & -> & _).
  destruct hosts as [|h0 rest]; [done|]. exists h0, rest.
  rewrite cluster_dict_master, cluster_dict_worker. simpl. rewrite drop_0.
  split; [done|]. split; [done|].
  split; [by destruct rest|]. split; [by destruct rest|].
  apply cluster_dict_keys.
Qed.

Lemma master_and_workers_partition_hosts_witness :
  exists cfg,
    _build_tf_config ["a"; "b"; "c"] "c" (Some 1) false = Ok cfg
    /\ cluster cfg !! "master" = Some ["a:2222"]
    /\ cluster cfg !! "worker" = Some ["b:2222"; "c:2222"].
Proof.
  destruct (_build_tf_config ["a"; "b"; "c"] "c" (Some 1) false)
    as [cfg|e] eqn:Hcfg; [|vm_compute in Hcfg; discriminate].
  destruct (master_and_workers_partition_hosts _ _ _ _ cfg Hcfg)
    as (h0 & rest & [= <- <-] & Hm & Hw & _).
  exists cfg. split; [reflexivity|]. split; assumption.
Defined.

Lemma length_append (a b : string) :
  String.length (a +:+ b) = (String.length a + String.length b)%nat.
Proof. induction a as [|c a IH]; simpl; [done|by rewrite IH]. Qed.

(** Joining a host with a fixed port loses nothing of the host. *)
Lemma append_suffix_inj (suffix a b : string) :
  a +:+ suffix = b +:+ suffix -> a = b.
Proof.
  revert b. induction a as [|c a IH]; intros [|d b] Heq; simpl in *.
  - done.
  - apply (f_equal String.length) in Heq.
    rewrite !length_append in Heq. simpl in Heq. lia.
  - apply (f_equal String.length) in Heq.
    rewrite !length_append in Heq. simpl in Heq. lia.
  - injection Heq as -> Heq. f_equal. by apply IH.
Qed.

Lemma host_addresses_NoDup hosts port :
  NoDup hosts -> NoDup (host_addresses hosts port).
Proof.
  intros Hnd. unfold host_addresses. apply NoDup_fmap_2_strong; [|done].
  intros a b _ _ Heq. by apply append_suffix_inj in Heq.
Qed.

(** X5.  When the host names are pairwise distinct, so are the endpoints of
    every list of a returned cluster. *)
Theorem distinct_hosts_distinct_endpoints hosts current_host ps_num ps_task cfg :
  NoDup hosts ->
  _build_tf_config hosts current_host ps_num ps_task = Ok cfg ->
  forall key endpoints,
    cluster cfg !! key = Some endpoints -> NoDup endpoints.
Proof.
  intros Hnd Hcfg key endpoints Hkey.
  apply _build_tf_config_Ok in Hcfg as (ps & Hps & _ & Hc & _).
  rewrite Hc in Hkey.
  destruct (cluster_dict_keys hosts ps key (mk_is_Some _ _ Hkey))
    as [-> | [-> | ->]].
  - rewrite cluster_dict_master in Hkey. injection Hkey as <-.
    apply host_addresses_NoDup. eapply sublist_NoDup; [exact Hnd|apply sublist_take].
  - rewrite cluster_dict_ps in Hkey. destruct ps as [l|]; [|done].
    destruct (truthy_list l); [|done]. injection Hkey as <-.
    apply host_addresses_NoDup.
    destruct ps_num as [n|].
    + rewrite ps_group_int in Hps.
      destruct (_ && _); [|done]. injection Hps as <-.
      eapply sublist_NoDup; [exact Hnd|apply sublist_take].
    + unfold ps_group in Hps. by destruct (1 <? _).
  - rewrite cluster_dict_worker in Hkey.
    destruct (truthy_list _); [|done]. injection Hkey as <-.
    apply host_addresses_NoDup. eapply sublist_NoDup; [exact Hnd|apply sublist_drop].
Qed.

Lemma distinct_hosts_distinct_endpoints_witness :
  exists cfg endpoints,
    _build_tf_config ["a"; "b"; "c"] "c" (Some 1) false = Ok cfg
    /\ cluster cfg !! "worker" = Some endpoints
    /\ NoDup endpoints.
Proof.
  destruct (_build_tf_config ["a"; "b"; "c"] "c" (Some 1) false)
    as [cfg|e] eqn:Hcfg; [|vm_compute in Hcfg; discriminate].
  assert (NoDup ["a"; "b"; "c"]) as Hnd
    by (apply (bool_decide_unpack _); vm_compute; exact I).
  destruct (cluster cfg !! "worker") as [endpoints|] eqn:Hw.
  - exists cfg, endpoints. split; [reflexivity|]. split; [exact Hw|].
    apply (distinct_hosts_distinct_endpoints ["a"; "b"; "c"] "c" (Some 1) false
             cfg Hnd Hcfg "worker" endpoints Hw).
  - vm_compute in Hcfg. injection Hcfg as <-. discriminate.
Defined.

(** ** The task of a returned descriptor *)

(** What a returned task entry says about the current host. *)
Lemma task_dict_Ok hosts current_host ps ps_task tk :
  task_dict hosts current_host ps ps_task = Ok tk ->
  (ps_task = true /\ task_type tk = "ps"
   /\ exists l, ps = Some l /\ index l current_host = Ok (task_index tk))
  \/ (ps_task = false /\ tk = {| task_index := 0; task_type := "master" |}
      /\ head hosts = Some current_host)
  \/ (ps_task = false /\ task_type tk = "worker"
      /\ head hosts <> Some current_host
      /\ index (drop 1 hosts) current_host = Ok (task_index tk)).
Proof.
  unfold task_dict, _is_host_master, slice_from_1. destruct ps_task.
  - destruct ps as [l|]; [|discriminate].
    destruct (index l current_host) as [i|e] eqn:Hi; [|discriminate].
    intros [= <-]. left. eauto.
  - destruct hosts as [|h0 rest]; [discriminate|]. simpl.
    destruct (String.eqb_spec current_host h0) as [->|Hne].
    + intros [= <-]. right. left. done.
    + destruct (index (drop 0 rest) current_host) as [i|e] eqn:Hi;
        [|discriminate].
      intros [= <-]. right. right.
      split; [done|]. split; [done|]. split; [congruence|done].
Qed.

(** X6.  The task of a returned descriptor locates the current host in the
    host list: a parameter server with index [i] is host [i], below the
    count, and is the first host of that name; the master is host 0; a
    worker with index [i] is host [i + 1] and is not the first host. *)
Theorem task_locates_current_host hosts current_host (n : Z) ps_task cfg :
  _build_tf_config hosts current_host (Some n) ps_task = Ok cfg ->
  let i := Z.to_nat (task_index (task cfg)) in
  0 <= task_index (task cfg)
  /\ ((ps_task = true /\ task_type (task cfg) = "ps"
       /\ hosts !! i = Some current_host
       /\ task_index (task cfg) < n
       /\ current_host ∉ take i hosts)
      \/ (ps_task = false /\ task (cfg) = {| task_index := 0; task_type := "master" |}
          /\ hosts !! 0%nat = Some current_host)
      \/ (ps_task = false /\ task_type (task cfg) = "worker"
          /\ hosts !! S i = Some current_host
          /\ hosts !! 0%nat <> Some current_host)).
Proof.
  intros Hcfg. apply _build_tf_config_Ok in Hcfg as (ps & Hps & Htk & _ & _).
  rewrite ps_group_int in Hps. cbv zeta.
  apply task_dict_Ok in Htk
    as [(-> & Hty & l & -> & Hi)|[(-> & Htk & Hhd)|(-> & Hty & Hhd & Hi)]].
  - destruct (_ && _) eqn:Hc; [|discriminate]. injection Hps as <-.
    apply ps_condition in Hc as [_ Hn].
    apply index_Ok in Hi as ((H0 & Hlt) & Hl & Hfirst).
    rewrite length_take in Hlt.
    apply lookup_take_Some in Hl as [Hl Hlt'].
    split; [done|]. left.
    split; [done|]. split; [done|]. split; [done|]. split; [lia|].
    by rewrite take_take, Nat.min_l in Hfirst by lia.
  - rewrite Htk. simpl. split; [done|]. right. left.
    by rewrite <- head_lookup.
  - apply index_Ok in Hi as ((H0 & _) & Hl & _). rewrite lookup_drop in Hl.
    split; [done|]. right. right. by rewrite <- head_lookup.
Qed.

Lemma task_locates_current_host_witness :
  exists cfg,
    _build_tf_config ["a"; "b"; "c"] "c" (Some 2) false = Ok cfg
    /\ 0 <= task_index (task cfg).
Proof.
  destruct (_build_tf_config ["a"; "b"; "c"] "c" (Some 2) false)
    as [cfg|e] eqn:Hcfg; [|vm_compute in Hcfg; discriminate].
  exists cfg. split; [reflexivity|].
  apply (task_locates_current_host ["a"; "b"; "c"] "c" 2 false cfg Hcfg).
Defined.

(** X7.  One host list and one count never give two different hosts the
    same task: if the resolver returns for two current hosts, in the same
    kind of process, descriptors with equal task entries, the two hosts are
    the same. *)
Theorem task_determines_current_host
    hosts current_host1 current_host2 ps_num ps_task cfg1 cfg2 :
  _build_tf_config hosts current_host1 ps_num ps_task = Ok cfg1 ->
  _build_tf_config hosts current_host2 ps_num ps_task = Ok cfg2 ->
  task cfg1 = task cfg2 ->
  current_host1 = current_host2.
Proof.
  intros H1 H2 Heq.
  apply _build_tf_config_Ok in H1 as (ps & Hps & Htk1 & _ & _).
  apply _build_tf_config_Ok in H2 as (ps' & Hps' & Htk2 & _ & _).
  rewrite Hps in Hps'. injection Hps' as <-. rewrite <- Heq in Htk2.
  apply task_dict_Ok in Htk1
    as [(-> & Hty & l & -> & Hi)|[(-> & Htk & Hhd)|(-> & Hty & Hhd & Hi)]];
  apply task_dict_Ok in Htk2
    as [(Hk & Hty' & l' & Hl' & Hi')|[(Hk & Htk' & Hhd')|(Hk & Hty' & Hhd' & Hi')]];
  try discriminate;
  try (rewrite Htk in Hty'; discriminate);
  try (rewrite Htk' in Hty; discriminate);
  try congruence.
  - injection Hl' as <-.
    apply index_Ok in Hi as (_ & Hl & _). apply index_Ok in Hi' as (_ & Hl' & _).
    congruence.
  - apply index_Ok in Hi as (_ & Hl & _). apply index_Ok in Hi' as (_ & Hl' & _).
    congruence.
Qed.

Lemma task_determines_current_host_witness :
  exists cfg,
    _build_tf_config ["a"; "b"; "c"] "c" (Some 2) false = Ok cfg
    /\ "c" = "c".
Proof.
  destruct (_build_tf_config ["a"; "b"; "c"] "c" (Some 2) false)
    as [cfg|e] eqn:Hcfg; [|vm_compute in Hcfg; discriminate].
  exists cfg. split; [reflexivity|].
  apply (task_determines_current_host ["a"; "b"; "c"] "c" "c" (Some 2) false
           cfg cfg Hcfg Hcfg eq_refl).
Defined.

(** ** The dispatcher's guard *)

Lemma _should_run_ps_on_this_host_int hosts current_host (n : Z) :
  0 <= n ->
  _should_run_ps_on_this_host hosts current_host (Some n) = true
  <-> current_host ∈ take (Z.to_nat n) hosts.
Proof.
  intros Hn. unfold _should_run_ps_on_this_host, slice_to.
  rewrite (proj2 (Z.leb_le 0 n) Hn). apply contains_elem_of.
Qed.

(** X8.  In a distributed job the guard of [train] and the resolver agree:
    [_should_run_ps_on_this_host] answers true exactly for the hosts on
    which resolving a parameter-server process returns a descriptor. *)
Theorem guard_matches_resolver hosts current_host (n : Z) :
  (1 < length hosts)%nat ->
  0 < n ->
  _should_run_ps_on_this_host hosts current_host (Some n) = true
  <-> exists cfg, _build_tf_config hosts current_host (Some n) true = Ok cfg.
Proof.
  intros Hlen Hn. rewrite _should_run_ps_on_this_host_int by lia. split.
  - intros Hin.
    destruct (_build_tf_config_ps_host hosts current_host n Hlen Hn Hin)
      as (cfg & Hcfg & _). eauto.
  - intros [cfg Hcfg].
    apply _build_tf_config_Ok in Hcfg as (ps & Hps & Htk & _ & _).
    rewrite ps_group_int, (proj2 (ps_condition hosts n)) in Hps by done.
    injection Hps as <-.
    apply task_dict_Ok in Htk as [(_ & _ & l & [= <-] & Hi)|[[[=] _]|[[=] _]]].
    apply index_Ok in Hi as (_ & Hl & _). by eapply list_elem_of_lookup_2.
Qed.

Lemma guard_matches_resolver_witness :
  _should_run_ps_on_this_host ["a"; "b"; "c"] "b" (Some 2) = true
  <-> exists cfg, _build_tf_config ["a"; "b"; "c"] "b" (Some 2) true = Ok cfg.
Proof.
  apply (guard_matches_resolver ["a"; "b"; "c"] "b" 2); [simpl; lia|lia].
Defined.

(** X9.  The guard at the ends of its range: a count of 0 selects no host;
    a count of at least the number of hosts, or an absent count, selects
    every host of the list and no other; a negative count [-k] selects the
    hosts that have at least [k] hosts after their first occurrence, so none
    once [k] reaches the number of hosts. *)
Theorem guard_count_bounds hosts current_host :
  _should_run_ps_on_this_host hosts current_host (Some 0) = false
  /\ (forall n, Z.of_nat (length hosts) <= n ->
        (_should_run_ps_on_this_host hosts current_host (Some n) = true
         <-> current_host ∈ hosts))
  /\ (_should_run_ps_on_this_host hosts current_host None = true
      <-> current_host ∈ hosts)
  /\ (forall k : nat, (0 < k)%nat ->
        (_should_run_ps_on_this_host hosts current_host (Some (- Z.of_nat k)) = true
         <-> current_host ∈ take (length hosts - k) hosts))
  /\ (forall n, n <= - Z.of_nat (length hosts) ->
        _should_run_ps_on_this_host hosts current_host (Some n) = false).
Proof.
  split; [done|]. split; [|split; [|split]].
  - intros n Hn. rewrite _should_run_ps_on_this_host_int by lia.
    by rewrite take_ge by lia.
  - apply contains_elem_of.
  - intros k Hk. unfold _should_run_ps_on_this_host, slice_to.
    rewrite (proj2 (Z.leb_gt 0 (- Z.of_nat k))) by lia.
    rewrite contains_elem_of.
    by replace (Z.to_nat (Z.of_nat (length hosts) + - Z.of_nat k))
      with (length hosts - k)%nat by lia.
  - intros n Hn. unfold _should_run_ps_on_this_host, slice_to.
    destruct (0 <=? n) eqn:Hpos.
    + apply Z.leb_le in Hpos.
      assert (n = 0) as -> by lia. by destruct hosts.
    + by replace (Z.to_nat (Z.of_nat (length hosts) + n)) with 0%nat by lia.
Qed.

Lemma guard_count_bounds_witness :
  (_should_run_ps_on_this_host ["a"; "b"; "c"] "c" (Some 5) = true
   <-> "c" ∈ ["a"; "b"; "c"])
  /\ (_should_run_ps_on_this_host ["a"; "b"; "c"] "b" (Some (- Z.of_nat 1)) = true
      <-> "b" ∈ take (3 - 1) ["a"; "b"; "c"])
  /\ _should_run_ps_on_this_host ["a"; "b"; "c"] "a" (Some (-3)) = false.
Proof.
  split; [|split].
  - apply (proj1 (proj2 (guard_count_bounds ["a"; "b"; "c"] "c")) 5).
    simpl. lia.
  - apply (proj1 (proj2 (proj2 (proj2 (guard_count_bounds ["a"; "b"; "c"] "b"))))
             1%nat).
    lia.
  - apply (proj2 (proj2 (proj2 (proj2 (guard_count_bounds ["a"; "b"; "c"] "a"))))
             (-3)).
    simpl. lia.
Defined.

(** X10.  In a distributed job the first host always carries parameter
    server 0 beside the master task: the guard selects it, resolving it as a
    parameter-server process gives task ps/0, and resolving it otherwise
    gives task master/0. *)
Theorem first_host_is_master_and_ps_0 h0 rest (n : Z) :
  rest <> [] ->
  0 < n ->
  _should_run_ps_on_this_host (h0 :: rest) h0 (Some n) = true
  /\ (exists cfg,
        _build_tf_config (h0 :: rest) h0 (Some n) true = Ok cfg
        /\ task cfg = {| task_index := 0; task_type := "ps" |})
  /\ (exists cfg,
        _build_tf_config (h0 :: rest) h0 (Some n) false = Ok cfg
        /\ task cfg = {| task_index := 0; task_type := "master" |}).
Proof.
  intros Hrest Hn.
  assert ((1 < length (h0 :: rest))%nat) as Hlen
    by (destruct rest; [done|simpl; lia]).
  split; [|split].
  - apply _should_run_ps_on_this_host_int; [lia|].
    replace (Z.to_nat n) with (S (Z.to_nat n - 1)) by lia. left.
  - rewrite _build_tf_config_int, (proj2 (ps_condition (h0 :: rest) n)) by done.
    cbv zeta. unfold task_dict.
    replace (Z.to_nat n) with (S (Z.to_nat n - 1)) by lia. simpl.
    rewrite String.eqb_refl. simpl. eauto.
  - rewrite _build_tf_config_int. cbv zeta.
    unfold task_dict, _is_host_master. simpl. rewrite String.eqb_refl. simpl.
    eauto.
Qed.

Lemma first_host_is_master_and_ps_0_witness :
  _should_run_ps_on_this_host ["a"; "b"; "c"] "a" (Some 1) = true
  /\ (exists cfg,
        _build_tf_config ["a"; "b"; "c"] "a" (Some 1) true = Ok cfg
        /\ task cfg = {| task_index := 0; task_type := "ps" |})
  /\ (exists cfg,
        _build_tf_config ["a"; "b"; "c"] "a" (Some 1) false = Ok cfg
        /\ task cfg = {| task_index := 0; task_type := "master" |}).
Proof.
  apply (first_host_is_master_and_ps_0 "a" ["b"; "c"] 1); [discriminate|lia].
Defined.

(** ** The poller with fuel *)

Section PollerOutcome.

Variable probes : nat -> Z.
Variable master : string.

Local Abbreviation cmd := (curl_command master).

(** With any fuel the poller has either returned after a failed probe that
    only successful probes precede, or used all its fuel on successful
    probes. *)
Lemma _wait_until_master_is_down_outcome fuel w :
  (exists n, (n < fuel)%nat
     /\ (forall i, (i < n)%nat -> probes (probes_made w + i) = 0)
     /\ probes (probes_made w + n) <> 0
     /\ _wait_until_master_is_down probes fuel master w
        = Returned tt (record_probe cmd (after_cycles master n w)))
  \/ ((forall i, (i < fuel)%nat -> probes (probes_made w + i) = 0)
      /\ _wait_until_master_is_down probes fuel master w
         = Running (after_cycles master fuel w)).
Proof.
  revert w. induction fuel as [|fuel IH]; intros w.
  - right. split; [lia|]. simpl. by rewrite (after_cycles_0 master).
  - destruct (Z.eq_dec (probes (probes_made w)) 0) as [Hup|Hdown].
    + destruct (IH (record_event (sleep 10) (record_probe cmd w)))
        as [(n & Hn & Hall & Hfail & Hret)|[Hall Hrun]].
      * left. exists (S n). split; [lia|]. split; [|split].
        -- by apply (probes_up_cons probes master).
        -- rewrite Nat.add_succ_r. exact Hfail.
        -- simpl. rewrite Hup. simpl. by rewrite Hret, (after_cycles_S master).
      * right. split; [by apply (probes_up_cons probes master)|].
        simpl. rewrite Hup. simpl. by rewrite Hrun, (after_cycles_S master).
    + left. exists 0%nat. split; [lia|]. split; [lia|].
      rewrite Nat.add_0_r. split; [done|]. simpl.
      rewrite (proj2 (Z.eqb_neq _ _) Hdown). by rewrite (after_cycles_0 master).
Qed.

Lemma count_events_app test (t1 t2 : list event) :
  count_events test (t1 ++ t2) = (count_events test t1 + count_events test t2)%nat.
Proof. unfold count_events. by rewrite List.filter_app, length_app. Qed.

Lemma success_cycles_S n :
  success_cycles master (S n)
    = ([check_call cmd; sleep 10] ++ success_cycles master n)%list.
Proof. reflexivity. Qed.

Lemma success_cycles_events n :
  Forall (fun e => e = check_call cmd \/ e = sleep 10) (success_cycles master n)
  /\ count_events is_check_call (success_cycles master n) = n
  /\ count_events is_run_module (success_cycles master n) = 0%nat.
Proof.
  induction n as [|n (IH1 & IH2 & IH3)]; [by repeat constructor|].
  rewrite success_cycles_S. split; [|split].
  - apply Forall_app. split; [|done].
    constructor; [by left|]. constructor; [by right|]. constructor.
  - rewrite count_events_app, IH2. reflexivity.
  - rewrite count_events_app, IH3. reflexivity.
Qed.

End PollerOutcome.

(** X11.  The function with fuel and the transition system agree on
    returning: the poller returns in world [w'] within its fuel exactly when
    the loop reaches its exit in [w'] in at most that many turns. *)
Theorem poller_returns_iff_exit_reached (probes : nat -> Z) (master : string)
    (fuel : nat) (w w' : world) :
  _wait_until_master_is_down probes fuel master w = Returned tt w'
  <-> exists k, (k <= fuel)%nat
        /\ nsteps (poller_step probes master) k (AtLoopHead, w) (Exited, w').
Proof.
  split.
  - intros Hret.
    destruct (_wait_until_master_is_down_outcome probes master fuel w)
      as [(n & Hn & Hall & Hfail & Hret')|[_ Hrun]]; [|congruence].
    rewrite Hret in Hret'. injection Hret' as ->.
    exists (S n). split; [lia|]. eapply nsteps_r.
    + by apply poller_cycles.
    + by apply probe_failed.
  - intros (k & Hk & Hrun). apply poller_nsteps_inv in Hrun. simpl in Hrun.
    destruct Hrun as (n & -> & Hall & Hfail & ->).
    apply _wait_until_master_is_down_returns; [done|done|lia].
Qed.

(** What the poller adds to the world, however it stops. *)
Lemma _wait_until_master_is_down_world (probes : nat -> Z) (master : string)
    (fuel : nat) (w : world) :
  exists t,
    outcome_world (_wait_until_master_is_down probes fuel master w)
      = {| trace := trace w ++ t;
           probes_made := probes_made w + count_events is_check_call t |}
    /\ Forall (fun e => e = check_call (curl_command master) \/ e = sleep 10) t
    /\ count_events is_run_module t = 0%nat.
Proof.
  destruct (success_cycles_events master fuel) as (Hf & Hc & Hr).
  destruct (_wait_until_master_is_down_outcome probes master fuel w)
    as [(n & Hn & _ & _ & ->)|[_ ->]].
  - destruct (success_cycles_events master n) as (Hf' & Hc' & Hr').
    exists (success_cycles master n ++ [check_call (curl_command master)])%list.
    simpl. rewrite !count_events_app, Hc', Hr'. split; [|split].
    + unfold record_probe, count_events. simpl.
      rewrite <- app_assoc. f_equal. lia.
    + apply Forall_app. split; [done|]. constructor; [by left|constructor].
    + reflexivity.
  - exists (success_cycles master fuel). simpl. by rewrite Hc, Hr.
Qed.

Lemma _wait_until_master_is_down_no_raise (probes : nat -> Z) (master : string)
    (fuel : nat) (w : world) e w' :
  _wait_until_master_is_down probes fuel master w <> Raised e w'.
Proof.
  by destruct (_wait_until_master_is_down_outcome probes master fuel w)
    as [(n & _ & _ & _ & ->)|[_ ->]].
Qed.

(** X12.  Whatever the probes answer and however much fuel it has, the
    poller never raises; it only adds probes of master:2222 and 10 second
    sleeps to the trace, and the probe counter grows by the number of probes
    added. *)
Theorem poller_only_probes_and_sleeps (probes : nat -> Z) (master : string)
    (fuel : nat) (w : world) :
  exists t,
    outcome_world (_wait_until_master_is_down probes fuel master w)
      = {| trace := trace w ++ t;
           probes_made := probes_made w + count_events is_check_call t |}
    /\ Forall (fun e => e = check_call ["curl"; master +:+ ":2222"]
                        \/ e = sleep 10) t
    /\ count_events is_run_module t = 0%nat
    /\ (forall e w', _wait_until_master_is_down probes fuel master w
                       <> Raised e w').
Proof.
  destruct (_wait_until_master_is_down_world probes master fuel w)
    as (t & Hw & Hf & Hr).
  exists t. split; [done|]. split; [done|]. split; [done|].
  intros e w'. apply _wait_until_master_is_down_no_raise.
Qed.

(** ** What [train] does on every input *)

Section TrainOutcome.

Variable json_dumps : tf_config -> string.
Variable probes : nat -> Z.

Local Abbreviation ps_num_of env :=
  (additional_framework_parameters env !! SAGEMAKER_PARAMETER_SERVER_NUM).
Local Abbreviation with_tf_config env cfg :=
  (<[ "TF_CONFIG" := json_dumps cfg ]> (to_env_vars env)).

(** [train] with its helpers inlined. *)
Lemma train_unfold env fuel w :
  train json_dumps probes fuel env w =
  if (1 <? Z.of_nat (length (hosts env))) && truthy_opt_int (ps_num_of env)
  then
    if _should_run_ps_on_this_host (hosts env) (current_host env) (ps_num_of env)
    then
      match _build_tf_config (hosts env) (current_host env) (ps_num_of env) true with
      | Raise e => Raised e w
      | Ok cfg_ps =>
          let w1 :=
            record_event
              (run_module (module_dir env) (to_cmd_args env)
                 (with_tf_config env cfg_ps) (module_name env) false) w in
          match _build_tf_config (hosts env) (current_host env) (ps_num_of env)
                  false with
          | Raise e => Raised e w1
          | Ok cfg_w =>
              let w3 :=
                record_event
                  (run (module_name env) (to_cmd_args env)
                     (with_tf_config env cfg_w))
                  (record_event (write_env_vars (with_tf_config env cfg_w)) w1) in
              match getitem_0 (hosts env) with
              | Raise e => Raised e w3
              | Ok master => _wait_until_master_is_down probes fuel master w3
              end
          end
      end
    else
      match _build_tf_config (hosts env) (current_host env) (ps_num_of env)
              false with
      | Raise e => Raised e w
      | Ok cfg_w =>
          Returned tt
            (record_event
               (run_module (module_dir env) (to_cmd_args env)
                  (with_tf_config env cfg_w) (module_name env) true) w)
      end
  else
    Returned tt
      (record_event
         (run_module (module_dir env) (to_cmd_args env) (to_env_vars env)
            (module_name env) true) w).
Proof.
  unfold train, _run_ps, _run_worker, _env_vars_with_tf_config, mbind, lift, emit.
  destruct (_ && _); [|done].
  destruct (_should_run_ps_on_this_host _ _ _).
  - destruct (_build_tf_config _ _ _ true); [|done]. simpl.
    destruct (_build_tf_config _ _ _ false); [|done]. simpl.
    by destruct (getitem_0 (hosts env)).
  - by destruct (_build_tf_config _ _ _ false).
Qed.

Lemma env_vars_of_job_refl env : env_vars_of_job env (to_env_vars env).
Proof. by intros key _. Qed.

Lemma env_vars_of_job_insert env value :
  env_vars_of_job env (<[ "TF_CONFIG" := value ]> (to_env_vars env)).
Proof. intros key Hkey. by rewrite lookup_insert_ne. Qed.

End TrainOutcome.

Section TrainFacts.

Variable json_dumps : tf_config -> string.
Variable probes : nat -> Z.

Local Abbreviation ps_num_of env :=
  (additional_framework_parameters env !! SAGEMAKER_PARAMETER_SERVER_NUM).
Local Abbreviation run_train := (train json_dumps probes).

Local Ltac job_events :=
  repeat (constructor; [simpl; eauto 10|]); constructor.

Local Ltac counts :=
  unfold count_events; simpl; repeat split; intros;
  first [lia | discriminate | done].

Local Ltac world_eq :=
  unfold record_event, count_events; simpl;
  rewrite <- ?app_assoc; simpl; f_equal; try reflexivity; simpl; lia.

(** What [train] adds to the world, however it stops: only events of its
    job, at most one [run_module] among them and exactly one unless it
    raised, and probes only on the parameter-server path, off which it also
    stops without needing fuel. *)
Lemma train_world env fuel w :
  exists t,
    outcome_world (run_train fuel env w)
      = {| trace := trace w ++ t;
           probes_made := probes_made w + count_events is_check_call t |}
    /\ Forall (event_of_job env) t
    /\ (count_events is_run_module t <= 1)%nat
    /\ ((forall e w', run_train fuel env w <> Raised e w') ->
        count_events is_run_module t = 1%nat)
    /\ (runs_parameter_server env = false ->
        count_events is_check_call t = 0%nat
        /\ (length t <= 1)%nat
        /\ forall w', run_train fuel env w <> Running w').
Proof.
  rewrite train_unfold. unfold runs_parameter_server.
  pose proof (env_vars_of_job_refl env) as Hrefl.
  pose proof (env_vars_of_job_insert env) as Hins.
  destruct (_ && _); simpl.
  2: { eexists [_]. split; [world_eq|].
       split; [job_events|]. counts. }
  destruct (_should_run_ps_on_this_host _ _ _); simpl.
  - destruct (_build_tf_config _ _ _ true) as [cfg_ps|e].
    2: { exists []. simpl. rewrite app_nil_r. split; [destruct w; world_eq|].
         split; [constructor|]. split; [unfold count_events; simpl; lia|].
         split; [|done]. intros Hno. by specialize (Hno e w). }
    destruct (_build_tf_config _ _ _ false) as [cfg_w|e]; cbv zeta.
    2: { eexists [_]. split; [world_eq|].
         split; [job_events|]. counts. }
    destruct (hosts env) as [|master rest] eqn:Hhosts; simpl.
    { eexists [_; _; _]. split.
      - world_eq.
      - split; [job_events|]. counts. }
    match goal with
    | |- context [_wait_until_master_is_down probes fuel master ?w3] =>
        destruct (_wait_until_master_is_down_world probes master fuel w3)
          as (tp & Hw & Hf & Hr)
    end.
    eexists ([_; _; _] ++ tp)%list. rewrite Hw. unfold record_event. simpl.
    split; [rewrite <- !app_assoc; simpl; f_equal|].
    split; [|split; [|split; [|done]]].
    + repeat (constructor; [simpl; eauto 10|]).
      eapply Forall_impl; [exact Hf|].
      intros e [->| ->]; simpl; [rewrite Hhosts; eauto|done].
    + unfold count_events in *. simpl. lia.
    + intros _. unfold count_events in *. simpl. lia.
  - destruct (_build_tf_config _ _ _ false) as [cfg_w|e].
    + eexists [_]. split; [world_eq|].
      split; [job_events|]. counts.
    + exists []. simpl. rewrite app_nil_r.
      split; [destruct w; world_eq|].
      split; [constructor|]. split; [unfold count_events; simpl; lia|].
      split; [|counts]. intros Hno. by specialize (Hno e w).
Qed.

End TrainFacts.

(** A host outside the list is outside every slice of it. *)
Lemma contains_slice_to hosts current_host stop :
  current_host ∉ hosts ->
  contains current_host (slice_to hosts stop) = false.
Proof.
  intros Hnot. destruct (contains _ _) eqn:Hc; [|done].
  apply contains_elem_of in Hc. exfalso. apply Hnot.
  unfold slice_to in Hc. destruct stop as [n|]; [|done].
  destruct (0 <=? n); apply elem_of_take in Hc as (i & Hi & _);
    by eapply list_elem_of_lookup_2.
Qed.

Lemma _build_tf_config_stranger hosts current_host (n : Z) :
  hosts <> [] ->
  current_host ∉ hosts ->
  _build_tf_config hosts current_host (Some n) false
    = Raise (NotInList current_host).
Proof.
  intros Hne Hnot. destruct hosts as [|h0 rest]; [done|].
  rewrite _build_tf_config_int. cbv zeta.
  unfold task_dict, _is_host_master, slice_from_1. simpl. rewrite drop_0.
  apply not_elem_of_cons in Hnot as [Hne0 Hrest].
  rewrite (proj2 (String.eqb_neq current_host h0) Hne0).
  by rewrite (index_absent rest current_host Hrest).
Qed.

(** X13.  With several hosts and a negative count, [train] takes the
    distributed branch, and on a host that the guard selects it raises the
    resolver's ValueError before launching anything. *)
Theorem train_negative_count_raises
    (json_dumps : tf_config -> string) (probes : nat -> Z)
    (env : TrainingEnv) (n : Z) (fuel : nat) (w : world) :
  (1 < length (hosts env))%nat ->
  additional_framework_parameters env !! SAGEMAKER_PARAMETER_SERVER_NUM = Some n ->
  n < 0 ->
  _should_run_ps_on_this_host (hosts env) (current_host env) (Some n) = true ->
  train json_dumps probes fuel env w
    = Raised (ValueError
        "Can not have a ps task if there are no parameter servers in the cluster")
        w.
Proof.
  intros Hlen Hnum Hn Hguard. rewrite train_unfold, Hnum, Hguard. simpl.
  rewrite (proj2 (Z.ltb_lt 1 _)), (proj2 (Z.eqb_neq n 0)) by lia. simpl.
  rewrite _build_tf_config_int. cbv zeta.
  by rewrite (proj2 (Z.ltb_ge 0 n)), andb_false_r by lia.
Qed.

Lemma train_negative_count_raises_witness :
  train (fun cfg => task_type (task cfg)) (fun _ => 0) 5
    {| hosts := ["a"; "b"; "c"]; current_host := "a";
       additional_framework_parameters :=
         {[ SAGEMAKER_PARAMETER_SERVER_NUM := -1 ]};
       module_dir := "s3://bucket/code"; module_name := "train";
       to_cmd_args := ["--epochs"; "1"]; to_env_vars := ∅ |}
    initial_world
  = Raised (ValueError
      "Can not have a ps task if there are no parameter servers in the cluster")
      initial_world.
Proof.
  apply (train_negative_count_raises (fun cfg => task_type (task cfg))
           (fun _ => 0)
           {| hosts := ["a"; "b"; "c"]; current_host := "a";
              additional_framework_parameters :=
                {[ SAGEMAKER_PARAMETER_SERVER_NUM := -1 ]};
              module_dir := "s3://bucket/code"; module_name := "train";
              to_cmd_args := ["--epochs"; "1"]; to_env_vars := ∅ |}
           (-1) 5 initial_world);
    [simpl; lia|reflexivity|lia|reflexivity].
Defined.

(** X14.  With several hosts and a non-zero count, a current host that is
    not in the host list makes [train] raise the not-in-list ValueError with
    nothing launched and nothing probed. *)
Theorem train_unknown_host_raises
    (json_dumps : tf_config -> string) (probes : nat -> Z)
    (env : TrainingEnv) (n : Z) (fuel : nat) (w : world) :
  (1 < length (hosts env))%nat ->
  additional_framework_parameters env !! SAGEMAKER_PARAMETER_SERVER_NUM = Some n ->
  n <> 0 ->
  current_host env ∉ hosts env ->
  train json_dumps probes fuel env w = Raised (NotInList (current_host env)) w.
Proof.
  intros Hlen Hnum Hn Hnot. rewrite train_unfold, Hnum. simpl.
  rewrite (proj2 (Z.ltb_lt 1 _)), (proj2 (Z.eqb_neq n 0)) by (done || lia).
  simpl. unfold _should_run_ps_on_this_host.
  rewrite contains_slice_to by done.
  rewrite _build_tf_config_stranger; [done| |done].
  intros Hnil. rewrite Hnil in Hlen. simpl in Hlen. lia.
Qed.

Lemma train_unknown_host_raises_witness :
  train (fun cfg => task_type (task cfg)) (fun _ => 0) 5
    (three_host_env "d") initial_world
  = Raised (NotInList "d") initial_world.
Proof.
  apply (train_unknown_host_raises (fun cfg => task_type (task cfg))
           (fun _ => 0) (three_host_env "d") 2 5 initial_world);
    [simpl; lia|reflexivity|lia|].
  simpl. intros Hin.
  repeat (apply elem_of_cons in Hin as [Hin|Hin]; [discriminate|]).
  by apply elem_of_nil in Hin.
Defined.



(** X16.  Off the parameter-server path, that is unless there are several
    hosts, a non-zero count and the guard selects the host, [train] never
    probes the master and never waits: it stops without using fuel, having
    added at most one event and no probe to the trace. *)
Theorem only_parameter_server_hosts_poll
    (json_dumps : tf_config -> string) (probes : nat -> Z)
    (env : TrainingEnv) (fuel : nat) (w : world) :
  runs_parameter_server env = false ->
  exists t,
    outcome_world (train json_dumps probes fuel env w)
      = {| trace := trace w ++ t; probes_made := probes_made w |}
    /\ (length t <= 1)%nat
    /\ count_events is_check_call t = 0%nat
    /\ (forall w', train json_dumps probes fuel env w <> Running w')
    /\ train json_dumps probes fuel env w = train json_dumps probes 0 env w.
Proof.
  intros Hoff.
  destruct (train_world json_dumps probes env fuel w)
    as (t & Hw & _ & _ & _ & Hpath).
  destruct (Hpath Hoff) as (Hprobes & Hlen & Hrun).
  exists t. rewrite Hw, Hprobes, Nat.add_0_r.
  split; [done|]. split; [done|]. split; [done|]. split; [done|].
  rewrite !train_unfold. unfold runs_parameter_server in Hoff.
  destruct (_ && truthy_opt_int _); [|done]. simpl in Hoff.
  by rewrite Hoff.
Qed.

Lemma only_parameter_server_hosts_poll_witness :
  exists t,
    outcome_world
      (train (fun cfg => task_type (task cfg)) (fun _ => 0) 5
         (three_host_env "c") initial_world)
      = {| trace := trace initial_world ++ t;
           probes_made := probes_made initial_world |}
    /\ (length t <= 1)%nat.
Proof.
  destruct (only_parameter_server_hosts_poll (fun cfg => task_type (task cfg))
              (fun _ => 0) (three_host_env "c") 5 initial_world)
    as (t & Hw & Hlen & _); [reflexivity|].
  exists t. split; assumption.
Defined.

(** X17.  Every event that [train] adds to the trace belongs to its job: a
    launch names the module directory, module name and arguments of [env] and
    carries an environment equal to [to_env_vars()] on every key other than
    ["TF_CONFIG"]; a probe is the curl command against the first host at port
    2222; a sleep lasts 10 seconds.  Earlier events are kept. *)
Theorem train_events_belong_to_job
    (json_dumps : tf_config -> string) (probes : nat -> Z)
    (env : TrainingEnv) (fuel : nat) (w : world) :
  exists t,
    trace (outcome_world (train json_dumps probes fuel env w))
      = (trace w ++ t)%list
    /\ Forall (event_of_job env) t.
Proof.
  destruct (train_world json_dumps probes env fuel w) as (t & Hw & Hjob & _).
  exists t. by rewrite Hw.
Qed.

(** X18.  On no input does [train] call [run_module], the launch that
    installs the module, more than once; and unless it raises it calls it
    exactly once. *)
Theorem train_installs_at_most_once
    (json_dumps : tf_config -> string) (probes : nat -> Z)
    (env : TrainingEnv) (fuel : nat) (w : world) :
  exists t,
    trace (outcome_world (train json_dumps probes fuel env w))
      = (trace w ++ t)%list
    /\ (count_events is_run_module t <= 1)%nat
    /\ ((forall e w', train json_dumps probes fuel env w <> Raised e w') ->
        count_events is_run_module t = 1%nat).
Proof.
  destruct (train_world json_dumps probes env fuel w)
    as (t & Hw & _ & Hle & Hone & _).
  exists t. by rewrite Hw.
Qed.
